(** * naver-keyword-mcp: a shallow embedding of [main.py]

    The server signs a request for the keyword tool of the search-ad API,
    ranks the records that come back and serves the ranking through a
    three-method JSON-RPC dispatcher.  This file embeds [generate_signature],
    [get_related_keywords], [format_keywords], [mcp_post] and [api_keywords]
    together with the parts of the Python runtime they call ([str], [int],
    [str.isdigit], [dict.get], [in], [sorted], slicing, f-strings,
    [str.encode], [hmac], [hashlib.sha256], [base64]), and proves the
    properties the specification states about them.

    Every handler is a function from its arguments to a [result]: the value
    it returns or the exception it raises.  The clock and the network, which
    [get_related_keywords] reads, and the credentials of the environment are
    variables of the section the handlers live in.  The event stream of
    [mcp_sse] is followed along the answers of its polls for a disconnected
    client.  The two liveness routes return constants and are not embedded. *)

From Stdlib Require Import ZArith NArith String Ascii List Bool Lia.
From Stdlib Require Import Permutation Sorted DecimalPos.
Import ListNotations.

(** ** Exceptions and results *)

(** The exception classes a run of the handlers can end with. *)
Inductive exn : Set :=
| AttributeError
| TypeError
| ValueError
| OverflowError
| KeyError
| UnicodeEncodeError
| UnicodeDecodeError
| RequestException
| JSONDecodeError.

(** A Python expression either yields a value or raises. *)
Inductive result (A : Type) : Type :=
| Ok (a : A)
| Raise (e : exn).

Arguments Ok {A} a.
Arguments Raise {A} e.

Definition bind {A B : Type} (m : result A) (k : A -> result B) : result B :=
  match m with
  | Ok a => k a
  | Raise e => Raise e
  end.

Notation "x <- m ;; k" := (bind m (fun x => k))
  (at level 61, m at next level, right associativity).

(** Evaluating [f] on the items of a list from left to right, stopping at the
    first exception. *)
Fixpoint traverse {A B : Type} (f : A -> result B) (l : list A) : result (list B) :=
  match l with
  | [] => Ok []
  | a :: r => b <- f a ;; bs <- traverse f r ;; Ok (b :: bs)
  end.

(** ** Strings *)

(** A Python [str] is a sequence of Unicode code points (each below
    [0x110000]). *)
Definition codepoint := N.
Definition pystr := list codepoint.

Local Open Scope N_scope.

(** [bytes.decode('utf-8')]: strict UTF-8, so no stray or missing
    continuation byte, no overlong form, no surrogate and nothing beyond
    [0x10FFFF]. *)
Definition is_cont (b : N) : bool := (0x80 <=? b) && (b <? 0xC0).

Fixpoint utf8_decode (bs : list N) : result pystr :=
  match bs with
  | [] => Ok []
  | b0 :: r =>
    if b0 <? 0x80 then rest <- utf8_decode r ;; Ok (b0 :: rest)
    else if b0 <? 0xC2 then Raise UnicodeDecodeError
    else if b0 <? 0xE0 then
      match r with
      | b1 :: r1 =>
        if is_cont b1
        then rest <- utf8_decode r1 ;; Ok (((b0 - 0xC0) * 64 + (b1 - 0x80)) :: rest)
        else Raise UnicodeDecodeError
      | _ => Raise UnicodeDecodeError
      end
    else if b0 <? 0xF0 then
      match r with
      | b1 :: b2 :: r2 =>
        let c := (b0 - 0xE0) * 4096 + (b1 - 0x80) * 64 + (b2 - 0x80) in
        if is_cont b1 && is_cont b2 && (0x800 <=? c)
           && negb ((0xD800 <=? c) && (c <? 0xE000))
        then rest <- utf8_decode r2 ;; Ok (c :: rest)
        else Raise UnicodeDecodeError
      | _ => Raise UnicodeDecodeError
      end
    else if b0 <? 0xF5 then
      match r with
      | b1 :: b2 :: b3 :: r3 =>
        let c := (b0 - 0xF0) * 262144 + (b1 - 0x80) * 4096 + (b2 - 0x80) * 64
                 + (b3 - 0x80) in
        if is_cont b1 && is_cont b2 && is_cont b3 && (0x10000 <=? c) && (c <? 0x110000)
        then rest <- utf8_decode r3 ;; Ok (c :: rest)
        else Raise UnicodeDecodeError
      | _ => Raise UnicodeDecodeError
      end
    else Raise UnicodeDecodeError
  end.

(** A string literal of [main.py], a file in UTF-8. *)
Definition lit (s : string) : pystr :=
  match utf8_decode (map N_of_ascii (list_ascii_of_string s)) with
  | Ok t => t
  | Raise _ => []
  end.

Definition str_eqb (s t : pystr) : bool :=
  if list_eq_dec N.eq_dec s t then true else false.

Fixpoint starts_with (p s : pystr) : bool :=
  match p, s with
  | [], _ => true
  | a :: p', b :: s' => (a =? b) && starts_with p' s'
  | _ :: _, [] => false
  end.

(** [sub in s] on two strings. *)
Fixpoint str_contains (s sub : pystr) : bool :=
  starts_with sub s ||
  match s with
  | [] => false
  | _ :: s' => str_contains s' sub
  end.

Fixpoint join (sep : pystr) (parts : list pystr) : pystr :=
  match parts with
  | [] => []
  | [p] => p
  | p :: rest => p ++ sep ++ join sep rest
  end.

(** *** The character classes behind [str.isdigit], [int] and [str.strip]

    Unicode 14 (CPython 3.11).  A decimal digit (Numeric_Type=Decimal) lies in
    one of 66 runs of ten consecutive code points holding the digits 0 to 9;
    [decimal_zeros] lists the first code point of each run. *)
Definition decimal_zeros : list N :=
  [ 0x30; 0x660; 0x6F0; 0x7C0; 0x966; 0x9E6; 0xA66; 0xAE6; 0xB66; 0xBE6; 0xC66;
    0xCE6; 0xD66; 0xDE6; 0xE50; 0xED0; 0xF20; 0x1040; 0x1090; 0x17E0; 0x1810;
    0x1946; 0x19D0; 0x1A80; 0x1A90; 0x1B50; 0x1BB0; 0x1C40; 0x1C50; 0xA620;
    0xA8D0; 0xA900; 0xA9D0; 0xA9F0; 0xAA50; 0xABF0; 0xFF10; 0x104A0; 0x10D30;
    0x11066; 0x110F0; 0x11136; 0x111D0; 0x112F0; 0x11450; 0x114D0; 0x11650;
    0x116C0; 0x11730; 0x118E0; 0x11950; 0x11C50; 0x11D50; 0x11DA0; 0x16A60;
    0x16AC0; 0x16B50; 0x1D7CE; 0x1D7D8; 0x1D7E2; 0x1D7EC; 0x1D7F6; 0x1E140;
    0x1E2F0; 0x1E950; 0x1FBF0 ].

(** The code points with Numeric_Type=Digit: superscripts, subscripts, circled
    and parenthesised digits and the like.  [str.isdigit] accepts them, [int]
    does not. *)
Definition digit_only_ranges : list (N * N) :=
  [ (0xB2, 0xB3); (0xB9, 0xB9); (0x1369, 0x1371); (0x19DA, 0x19DA);
    (0x2070, 0x2070); (0x2074, 0x2079); (0x2080, 0x2089); (0x2460, 0x2468);
    (0x2474, 0x247C); (0x2488, 0x2490); (0x24EA, 0x24EA); (0x24F5, 0x24FD);
    (0x24FF, 0x24FF); (0x2776, 0x277E); (0x2780, 0x2788); (0x278A, 0x2792);
    (0x10A40, 0x10A43); (0x10E60, 0x10E68); (0x11052, 0x1105A);
    (0x1F100, 0x1F10A) ].

(** The code points [str.isspace] accepts; [int] strips them from both ends. *)
Definition whitespace_points : list N :=
  [ 0x9; 0xA; 0xB; 0xC; 0xD; 0x1C; 0x1D; 0x1E; 0x1F; 0x20; 0x85; 0xA0; 0x1680;
    0x2000; 0x2001; 0x2002; 0x2003; 0x2004; 0x2005; 0x2006; 0x2007; 0x2008;
    0x2009; 0x200A; 0x2028; 0x2029; 0x202F; 0x205F; 0x3000 ].

Fixpoint decimal_in (zeros : list N) (c : codepoint) : option N :=
  match zeros with
  | [] => None
  | z :: rest => if (z <=? c) && (c <? z + 10) then Some (c - z) else decimal_in rest c
  end.

(** The value of [c] as a decimal digit, when it is one. *)
Definition decimal_value (c : codepoint) : option N := decimal_in decimal_zeros c.

Definition is_decimal (c : codepoint) : bool :=
  match decimal_value c with Some _ => true | None => false end.

Definition is_digit (c : codepoint) : bool :=
  is_decimal c || existsb (fun r => (fst r <=? c) && (c <=? snd r)) digit_only_ranges.

Definition is_space (c : codepoint) : bool := existsb (N.eqb c) whitespace_points.

(** [s.isdigit()]: at least one character, and all of them digits. *)
Definition isdigit (s : pystr) : bool :=
  match s with
  | [] => false
  | _ => forallb is_digit s
  end.

(** [s.isdecimal()]. *)
Definition isdecimal (s : pystr) : bool :=
  match s with
  | [] => false
  | _ => forallb is_decimal s
  end.

(** ** Integers and floats as text *)

Fixpoint uint_chars (u : Decimal.uint) : pystr :=
  match u with
  | Decimal.Nil => []
  | Decimal.D0 r => 0x30 :: uint_chars r
  | Decimal.D1 r => 0x31 :: uint_chars r
  | Decimal.D2 r => 0x32 :: uint_chars r
  | Decimal.D3 r => 0x33 :: uint_chars r
  | Decimal.D4 r => 0x34 :: uint_chars r
  | Decimal.D5 r => 0x35 :: uint_chars r
  | Decimal.D6 r => 0x36 :: uint_chars r
  | Decimal.D7 r => 0x37 :: uint_chars r
  | Decimal.D8 r => 0x38 :: uint_chars r
  | Decimal.D9 r => 0x39 :: uint_chars r
  end.

(** [str(z)] of an integer: its decimal digits, after a minus sign when it is
    negative.  (The interpreter's optional cap on the number of digits of such
    a conversion, a run-time setting, is not part of the model.) *)
Definition int_str (z : Z) : pystr :=
  match Z.to_int z with
  | Decimal.Pos u => uint_chars u
  | Decimal.Neg u => 0x2D :: uint_chars u
  end.

(** The [','] format of an integer: a comma before every group of three
    digits, counted from the right. *)
Fixpoint commas_rev (ds : pystr) : pystr :=
  match ds with
  | a :: b :: c :: ((_ :: _) as rest) => a :: b :: c :: 0x2C :: commas_rev rest
  | _ => ds
  end.

Definition int_commas (z : Z) : pystr :=
  match Z.to_int z with
  | Decimal.Pos u => rev (commas_rev (rev (uint_chars u)))
  | Decimal.Neg u => 0x2D :: rev (commas_rev (rev (uint_chars u)))
  end.

(** A float is kept by what [repr] prints of it: not-a-number, an infinity, or
    the shortest digits [d1 ... dn] that read back as the same float together
    with the position of the decimal point, the value being
    [0.d1...dn * 10^decpt] (zero is the digit [0] with [decpt = 1]). *)
Inductive pyfloat : Set :=
| FNan
| FInf (neg : bool)
| FFinite (neg : bool) (digits : list N) (decpt : Z).

Definition digit_chars (ds : list N) : pystr := map (fun d => 0x30 + d) ds.

Definition zeros (n : Z) : pystr := repeat 0x30 (Z.to_nat n).

Definition float_fixed (ds : list N) (decpt : Z) : pystr :=
  let n := Z.of_nat (length ds) in
  if (decpt <=? 0)%Z then [0x30; 0x2E] ++ zeros (- decpt) ++ digit_chars ds
  else if (n <=? decpt)%Z then digit_chars ds ++ zeros (decpt - n) ++ [0x2E; 0x30]
  else digit_chars (firstn (Z.to_nat decpt) ds) ++ [0x2E]
       ++ digit_chars (skipn (Z.to_nat decpt) ds).

Definition float_exp (ds : list N) (decpt : Z) : pystr :=
  let e := (decpt - 1)%Z in
  let mantissa :=
    match ds with
    | [] => []
    | [d] => digit_chars [d]
    | d :: rest => digit_chars [d] ++ [0x2E] ++ digit_chars rest
    end in
  let expo := int_str (Z.abs e) in
  mantissa ++ [0x65] ++ [if (e <? 0)%Z then 0x2D else 0x2B]
    ++ (if (Z.abs e <? 10)%Z then 0x30 :: expo else expo).

(** [str(f)] and [repr(f)] of a float. *)
Definition float_str (f : pyfloat) : pystr :=
  match f with
  | FNan => [0x6E; 0x61; 0x6E]
  | FInf neg => (if neg then [0x2D] else []) ++ [0x69; 0x6E; 0x66]
  | FFinite neg ds decpt =>
    (if neg then [0x2D] else [])
      ++ (if (decpt <=? -4)%Z || (16 <? decpt)%Z
          then float_exp ds decpt else float_fixed ds decpt)
  end.

(** The [','] format of a float: the commas go into the digits before the
    point of the fixed notation. *)
Fixpoint take_until_point (s : pystr) : pystr :=
  match s with
  | [] => []
  | c :: r => if c =? 0x2E then [] else c :: take_until_point r
  end.

Fixpoint drop_until_point (s : pystr) : pystr :=
  match s with
  | [] => []
  | c :: r => if c =? 0x2E then s else drop_until_point r
  end.

Definition float_commas (f : pyfloat) : pystr :=
  match f with
  | FFinite neg ds decpt =>
    (if neg then [0x2D] else [])
      ++ (if (decpt <=? -4)%Z || (16 <? decpt)%Z then float_exp ds decpt
          else
            let body := float_fixed ds decpt in
            rev (commas_rev (rev (take_until_point body))) ++ drop_until_point body)
  | _ => float_str f
  end.

Definition digits_number (ds : list N) : N := fold_left (fun acc d => 10 * acc + d) ds 0.

(** The integer part of a finite float.  Below [2^53] it is the integer part
    of the printed decimal; from [2^53] on the float is the integer nearest to
    the printed decimal among those with 53 significant bits, ties to even. *)
Definition float_magnitude (ds : list N) (decpt : Z) : N :=
  let n := Z.of_nat (length ds) in
  let num := digits_number ds * 10 ^ Z.to_N (decpt - n) in
  let den := 10 ^ Z.to_N (n - decpt) in
  let q0 := num / den in
  if q0 <? 2 ^ 53 then q0
  else
    let unit := den * 2 ^ (N.log2 q0 - 52) in
    let q := num / unit in
    let r := num mod unit in
    let q' := if unit <? 2 * r then q + 1
              else if (unit =? 2 * r) && N.odd q then q + 1 else q in
    q' * 2 ^ (N.log2 q0 - 52).

(** [int(f)] of a float. *)
Definition float_trunc (f : pyfloat) : result Z :=
  match f with
  | FNan => Raise ValueError
  | FInf _ => Raise OverflowError
  | FFinite neg ds decpt =>
    let m := Z.of_N (float_magnitude ds decpt) in
    Ok (if neg then (- m)%Z else m)
  end.

Definition float_is_zero (f : pyfloat) : bool :=
  match f with
  | FFinite _ ds _ => forallb (N.eqb 0) ds
  | _ => false
  end.

(** ** Parsing an integer: [int(s)] on a string

    Surrounding whitespace (that of [str.isspace] without the four ASCII
    separators [0x1C]-[0x1F]) is dropped, one sign is accepted, and the rest
    must be decimal digits, single underscores allowed between two digits. *)
Definition is_int_space (c : codepoint) : bool :=
  is_space c && negb ((0x1C <=? c) && (c <=? 0x1F)).

Fixpoint drop_while (p : codepoint -> bool) (s : pystr) : pystr :=
  match s with
  | [] => []
  | c :: r => if p c then drop_while p r else s
  end.

Definition int_strip (s : pystr) : pystr :=
  rev (drop_while is_int_space (rev (drop_while is_int_space s))).

(** The digits after the first one: [acc] is the number read so far. *)
Fixpoint int_digits_tail (acc : N) (s : pystr) : option N :=
  match s with
  | [] => Some acc
  | c :: r =>
    if c =? 0x5F then
      match r with
      | d :: r' =>
        match decimal_value d with
        | Some v => int_digits_tail (10 * acc + v) r'
        | None => None
        end
      | [] => None
      end
    else
      match decimal_value c with
      | Some v => int_digits_tail (10 * acc + v) r
      | None => None
      end
  end.

Definition int_digits (s : pystr) : option N :=
  match s with
  | [] => None
  | c :: r =>
    match decimal_value c with
    | Some v => int_digits_tail v r
    | None => None
    end
  end.

Definition int_of_str (s : pystr) : result Z :=
  match int_strip s with
  | [] => Raise ValueError
  | c :: r =>
    if c =? 0x2D then
      match int_digits r with Some n => Ok (- Z.of_N n)%Z | None => Raise ValueError end
    else if c =? 0x2B then
      match int_digits r with Some n => Ok (Z.of_N n) | None => Raise ValueError end
    else
      match int_digits (c :: r) with Some n => Ok (Z.of_N n) | None => Raise ValueError end
  end.

(** ** Values

    What [json] parsing produces and what the handlers build: [None], booleans,
    integers, floats, strings, lists and dicts.  A dict keeps its entries in
    insertion order, which is the order its keys are iterated and printed in;
    its keys are strings, as in JSON. *)
#[warnings="-register-all"]
Inductive value : Type :=
| VNone
| VBool (b : bool)
| VInt (z : Z)
| VFloat (f : pyfloat)
| VStr (s : pystr)
| VList (items : list value)
| VDict (entries : list (pystr * value)).

Fixpoint assoc {A : Type} (k : pystr) (d : list (pystr * A)) : option A :=
  match d with
  | [] => None
  | (k', v) :: rest => if str_eqb k' k then Some v else assoc k rest
  end.

(** The value under a key, or a default. *)
Definition field_or (d : list (pystr * value)) (name : pystr) (default : value) : value :=
  match assoc name d with Some v => v | None => default end.

(** [x.get(k, default)]: only a dict has the method. *)
Definition py_get (x : value) (k : pystr) (default : value) : result value :=
  match x with
  | VDict d => Ok (field_or d k default)
  | _ => Raise AttributeError
  end.

(** [v == "..."] against a string. *)
Definition py_eq_str (v : value) (s : pystr) : bool :=
  match v with
  | VStr t => str_eqb t s
  | _ => false
  end.

(** [k in x] for a string [k]: a key of a dict, an item of a list, a substring
    of a string; the other values are not containers. *)
Definition py_in (k : pystr) (x : value) : result bool :=
  match x with
  | VDict d => Ok (match assoc k d with Some _ => true | None => false end)
  | VList items => Ok (existsb (fun v => py_eq_str v k) items)
  | VStr s => Ok (str_contains s k)
  | _ => Raise TypeError
  end.

(** [x[k]] for a string [k]. *)
Definition py_getitem (x : value) (k : pystr) : result value :=
  match x with
  | VDict d => match assoc k d with Some v => Ok v | None => Raise KeyError end
  | _ => Raise TypeError
  end.

(** The items a [for] loop or [sorted] draws from [x]. *)
Definition py_iter (x : value) : result (list value) :=
  match x with
  | VList items => Ok items
  | VDict d => Ok (map (fun kv => VStr (fst kv)) d)
  | VStr s => Ok (map (fun c => VStr [c]) s)
  | _ => Raise TypeError
  end.

Definition py_len (x : value) : result Z :=
  match x with
  | VList items => Ok (Z.of_nat (length items))
  | VDict d => Ok (Z.of_nat (length d))
  | VStr s => Ok (Z.of_nat (length s))
  | _ => Raise TypeError
  end.

(** [bool(v)]. *)
Definition py_truthy (v : value) : bool :=
  match v with
  | VNone => false
  | VBool b => b
  | VInt z => negb (z =? 0)%Z
  | VFloat f => negb (float_is_zero f)
  | VStr s => match s with [] => false | _ => true end
  | VList items => match items with [] => false | _ => true end
  | VDict d => match d with [] => false | _ => true end
  end.

(** [int(v)]. *)
Definition py_int (v : value) : result Z :=
  match v with
  | VInt z => Ok z
  | VBool b => Ok (if b then 1 else 0)%Z
  | VFloat f => float_trunc f
  | VStr s => int_of_str s
  | _ => Raise TypeError
  end.

(** [l[:stop]] with an integer bound: a negative bound counts from the end. *)
Definition slice_to {A : Type} (l : list A) (stop : Z) : list A :=
  if (0 <=? stop)%Z then firstn (Z.to_nat stop) l
  else firstn (Z.to_nat (Z.of_nat (length l) + stop)) l.

(** [l[:stop]]: the bound is an integer (a boolean counts as one) or [None]. *)
Definition py_slice_to {A : Type} (l : list A) (stop : value) : result (list A) :=
  match stop with
  | VNone => Ok l
  | VInt z => Ok (slice_to l z)
  | VBool b => Ok (slice_to l (if b then 1 else 0)%Z)
  | _ => Raise TypeError
  end.

(** *** [sorted(..., key=..., reverse=True)]

    The keys are computed once, item by item; the items are then put in
    descending order of their keys, items with equal keys staying in the order
    they came in.  Every item goes in front of the items that follow it in
    the input unless their key is strictly greater. *)
Fixpoint insert_desc {A : Type} (k : Z) (x : A) (l : list (Z * A)) : list (Z * A) :=
  match l with
  | [] => [(k, x)]
  | (k', y) :: rest =>
    if (k <? k')%Z then (k', y) :: insert_desc k x rest else (k, x) :: l
  end.

Fixpoint sort_desc {A : Type} (l : list (Z * A)) : list (Z * A) :=
  match l with
  | [] => []
  | (k, x) :: rest => insert_desc k x (sort_desc rest)
  end.

Definition py_sorted_reverse {A : Type} (key : A -> result Z) (l : list A)
  : result (list A) :=
  keys <- traverse key l ;;
  Ok (map snd (sort_desc (combine keys l))).

(** Two items in descending order of their keys, and the items of one key. *)
Definition key_ge {A : Type} (p q : Z * A) : Prop := (fst q <= fst p)%Z.
Definition key_is {A : Type} (j : Z) (p : Z * A) : bool := (fst p =? j)%Z.

(** The items paired with their keys. *)
Definition decorate {A : Type} (rank : A -> Z) (l : list A) : list (Z * A) :=
  combine (map rank l) l.

(** ** Bytes: [str.encode], [hashlib.sha256], [hmac], [base64] *)

(** A [bytes] object: numbers below 256. *)
Definition bytes := list N.

(** [s.encode('utf-8')]: a surrogate has no encoding. *)
Definition utf8_char (c : codepoint) : result bytes :=
  if c <? 0x80 then Ok [c]
  else if c <? 0x800 then Ok [0xC0 + c / 64; 0x80 + c mod 64]
  else if c <? 0x10000 then
    if (0xD800 <=? c) && (c <? 0xE000) then Raise UnicodeEncodeError
    else Ok [0xE0 + c / 4096; 0x80 + (c / 64) mod 64; 0x80 + c mod 64]
  else if c <? 0x110000 then
    Ok [0xF0 + c / 262144; 0x80 + (c / 4096) mod 64; 0x80 + (c / 64) mod 64;
        0x80 + c mod 64]
  else Raise UnicodeEncodeError.

Fixpoint utf8_encode (s : pystr) : result bytes :=
  match s with
  | [] => Ok []
  | c :: r => bs <- utf8_char c ;; rest <- utf8_encode r ;; Ok (bs ++ rest)
  end.

(** *** SHA-256 (FIPS 180-4), on 32-bit words held in [N] *)

Definition w32 (x : N) : N := x mod 2 ^ 32.
Definition add32 (x y : N) : N := w32 (x + y).
Definition rotr (n x : N) : N := N.lor (N.shiftr x n) (w32 (N.shiftl x (32 - n))).
Definition not32 (x : N) : N := N.lxor x 0xFFFFFFFF.

Definition Ch (x y z : N) : N := N.lxor (N.land x y) (N.land (not32 x) z).
Definition Maj (x y z : N) : N :=
  N.lxor (N.lxor (N.land x y) (N.land x z)) (N.land y z).
Definition Sigma0 (x : N) : N := N.lxor (N.lxor (rotr 2 x) (rotr 13 x)) (rotr 22 x).
Definition Sigma1 (x : N) : N := N.lxor (N.lxor (rotr 6 x) (rotr 11 x)) (rotr 25 x).
Definition sigma0 (x : N) : N := N.lxor (N.lxor (rotr 7 x) (rotr 18 x)) (N.shiftr x 3).
Definition sigma1 (x : N) : N := N.lxor (N.lxor (rotr 17 x) (rotr 19 x)) (N.shiftr x 10).

(** The first 64 primes.  The round constants are the first 32 bits of the
    fractional parts of their cube roots, the initial chaining words those of
    the square roots of the first eight. *)
Definition primes64 : list N :=
  [ 2; 3; 5; 7; 11; 13; 17; 19; 23; 29; 31; 37; 41; 43; 47; 53; 59; 61; 67; 71;
    73; 79; 83; 89; 97; 101; 103; 107; 109; 113; 127; 131; 137; 139; 149; 151;
    157; 163; 167; 173; 179; 181; 191; 193; 197; 199; 211; 223; 227; 229; 233;
    239; 241; 251; 257; 263; 269; 271; 277; 281; 283; 293; 307; 311 ].

(** The integer cube root, found bit by bit from bit [bit - 1] down. *)
Fixpoint cube_root_from (bit : nat) (x r : N) : N :=
  match bit with
  | O => r
  | S b =>
    let c := r + 2 ^ N.of_nat b in
    cube_root_from b x (if c * c * c <=? x then c else r)
  end.

Definition cube_root (x : N) : N := cube_root_from 40 x 0.

Definition K256 : list N :=
  Eval vm_compute in map (fun p => w32 (cube_root (p * 2 ^ 96))) primes64.

(** The eight chaining words. *)
Record hash_words : Set := Words {
  wa : N; wb : N; wc : N; wd : N; we : N; wf : N; wg : N; wh : N
}.

Definition root_word (p : N) : N := w32 (N.sqrt (p * 2 ^ 64)).

Definition initial_words : hash_words :=
  Eval vm_compute in
    Words (root_word 2) (root_word 3) (root_word 5) (root_word 7)
          (root_word 11) (root_word 13) (root_word 17) (root_word 19).

(** The message is followed by the byte [0x80], by zero bytes up to 56 modulo
    64, and by its length in bits on eight bytes. *)
Definition be_bytes (width : nat) (x : N) : bytes :=
  map (fun i => (x / 2 ^ (8 * N.of_nat i)) mod 256) (rev (seq 0 width)).

Definition sha_pad (msg : bytes) : bytes :=
  let len := Z.of_nat (length msg) in
  msg ++ [0x80] ++ repeat 0 (Z.to_nat ((55 - len) mod 64))
      ++ be_bytes 8 (8 * N.of_nat (length msg)).

Fixpoint be_words (bs : bytes) : list N :=
  match bs with
  | b0 :: b1 :: b2 :: b3 :: r =>
    (b0 * 2 ^ 24 + b1 * 2 ^ 16 + b2 * 2 ^ 8 + b3) :: be_words r
  | _ => []
  end.

Fixpoint blocks (count : nat) (bs : bytes) : list bytes :=
  match count with
  | O => []
  | S count' => firstn 64 bs :: blocks count' (skipn 64 bs)
  end.

(** The 48 further words of the message schedule; [window] holds the sixteen
    words before the one being made. *)
Fixpoint schedule_more (count : nat) (window : list N) : list N :=
  match count with
  | O => []
  | S count' =>
    let wt := add32 (add32 (add32 (sigma1 (nth 14 window 0)) (nth 9 window 0))
                           (sigma0 (nth 1 window 0)))
                    (nth 0 window 0) in
    wt :: schedule_more count' (tl window ++ [wt])
  end.

Definition schedule (block : bytes) : list N :=
  let first := be_words block in
  first ++ schedule_more 48 first.

Definition sha_round (s : hash_words) (kw : N * N) : hash_words :=
  let t1 := add32 (add32 (add32 (add32 (wh s) (Sigma1 (we s)))
                                (Ch (we s) (wf s) (wg s)))
                         (fst kw))
                  (snd kw) in
  let t2 := add32 (Sigma0 (wa s)) (Maj (wa s) (wb s) (wc s)) in
  Words (add32 t1 t2) (wa s) (wb s) (wc s) (add32 (wd s) t1) (we s) (wf s) (wg s).

Definition sha_block (h : hash_words) (block : bytes) : hash_words :=
  let s := fold_left sha_round (combine K256 (schedule block)) h in
  Words (add32 (wa h) (wa s)) (add32 (wb h) (wb s)) (add32 (wc h) (wc s))
        (add32 (wd h) (wd s)) (add32 (we h) (we s)) (add32 (wf h) (wf s))
        (add32 (wg h) (wg s)) (add32 (wh h) (wh s)).

(** [hashlib.sha256(msg).digest()]. *)
Definition sha256 (msg : bytes) : bytes :=
  let padded := sha_pad msg in
  let h := fold_left sha_block (blocks (length padded / 64) padded) initial_words in
  flat_map (be_bytes 4) [wa h; wb h; wc h; wd h; we h; wf h; wg h; wh h].

(** *** The hash object of [hashlib] and the [HMAC] object of [hmac.py]

    A hash object gathers what [update] feeds it and hashes it on [digest].
    [hmac.new] prepares an inner and an outer object from the key, shortened
    by the hash when longer than a block and then filled with zero bytes to
    the 64 bytes of a block. *)
Definition hash_object := bytes.
Definition hash_new : hash_object := [].
Definition hash_update (h : hash_object) (data : bytes) : hash_object := h ++ data.
Definition hash_digest (h : hash_object) : bytes := sha256 h.

Record hmac_object : Set := Hmac { inner : hash_object; outer : hash_object }.

Definition translate (pad : N) (key : bytes) : bytes := map (N.lxor pad) key.

Definition ljust (width : nat) (bs : bytes) : bytes :=
  bs ++ repeat 0 (width - length bs).

Definition hmac_new (key msg : bytes) : hmac_object :=
  let key := if (64 <? length key)%nat then hash_digest (hash_update hash_new key)
             else key in
  let key := ljust 64 key in
  let outer := hash_update hash_new (translate 0x5C key) in
  let inner := hash_update hash_new (translate 0x36 key) in
  Hmac (hash_update inner msg) outer.

Definition hmac_digest (h : hmac_object) : bytes :=
  hash_digest (hash_update (outer h) (hash_digest (inner h))).

(** *** [base64.b64encode] *)
Definition b64_char (i : N) : N :=
  if i <? 26 then 0x41 + i
  else if i <? 52 then 0x61 + (i - 26)
  else if i <? 62 then 0x30 + (i - 52)
  else if i =? 62 then 0x2B
  else 0x2F.

Fixpoint b64encode (bs : bytes) : bytes :=
  match bs with
  | [] => []
  | [b0] =>
    [b64_char (b0 / 4); b64_char ((b0 mod 4) * 16); 0x3D; 0x3D]
  | [b0; b1] =>
    [b64_char (b0 / 4); b64_char ((b0 mod 4) * 16 + b1 / 16);
     b64_char ((b1 mod 16) * 4); 0x3D]
  | b0 :: b1 :: b2 :: r =>
    [b64_char (b0 / 4); b64_char ((b0 mod 4) * 16 + b1 / 16);
     b64_char ((b1 mod 16) * 4 + b2 / 64); b64_char (b2 mod 64)] ++ b64encode r
  end.

(** ** The signature as the specification words it

    HMAC as RFC 2104 writes it,
    [H((K0 xor opad) || H((K0 xor ipad) || text))], over SHA-256, the key [K0]
    being the key brought to the block length. *)
Definition hmac_key_block (key : bytes) : bytes :=
  let k := if (64 <? length key)%nat then sha256 key else key in
  k ++ repeat 0 (64 - length k).

Definition hmac_sha256 (key text : bytes) : bytes :=
  let k0 := hmac_key_block key in
  sha256 (map (N.lxor 0x5C) k0 ++ sha256 (map (N.lxor 0x36) k0 ++ text)).

(** A string that [encode] accepts: code points that are no surrogates. *)
Definition encodable (s : pystr) : bool :=
  forallb (fun c => (c <? 0x110000) && negb ((0xD800 <=? c) && (c <? 0xE000))) s.

(** The UTF-8 bytes of a string of such code points. *)
Definition utf8_bytes (s : pystr) : bytes :=
  flat_map (fun c =>
    if c <? 0x80 then [c]
    else if c <? 0x800 then [0xC0 + c / 64; 0x80 + c mod 64]
    else if c <? 0x10000 then [0xE0 + c / 4096; 0x80 + (c / 64) mod 64; 0x80 + c mod 64]
    else [0xF0 + c / 262144; 0x80 + (c / 4096) mod 64; 0x80 + (c / 64) mod 64;
          0x80 + c mod 64]) s.

(** The 64 characters of the standard base64 alphabet. *)
Definition is_b64_char (c : N) : bool :=
  ((0x41 <=? c) && (c <=? 0x5A)) || ((0x61 <=? c) && (c <=? 0x7A))
  || ((0x30 <=? c) && (c <=? 0x39)) || (c =? 0x2B) || (c =? 0x2F).

(** ** The normalization of a count, in the words of the specification

    The number a string of decimal digits writes. *)
Definition digit_or_zero (c : codepoint) : N :=
  match decimal_value c with Some v => v | None => 0 end.

Definition decimal_number (s : pystr) : Z :=
  Z.of_N (fold_left (fun acc c => 10 * acc + digit_or_zero c) s 0).


(** As the code has it: a JSON integer that is not negative counts as
    itself; the rest is as above. *)
Definition normalized_count (field : option value) : Z :=
  match field with
  | Some (VStr s) =>
    if str_eqb s (lit "< 10") then 0%Z
    else if isdecimal s then decimal_number s
    else 0%Z
  | Some (VInt z) => if (0 <=? z)%Z then z else 0%Z
  | _ => 0%Z
  end.

(** The entry of a record with its counts normalized by [count]. *)
Definition entry_with (count : option value -> Z) (r : value) : value :=
  match r with
  | VDict d =>
    let pc := count (assoc (lit "monthlyPcQcCnt") d) in
    let mobile := count (assoc (lit "monthlyMobileQcCnt") d) in
    VDict [ (lit "keyword", field_or d (lit "relKeyword") (VStr []));
            (lit "monthlySearches", VInt (pc + mobile));
            (lit "pcSearches", VInt pc);
            (lit "mobileSearches", VInt mobile);
            (lit "competition", field_or d (lit "compIdx") (VStr [])) ]
  | _ => VNone
  end.

(** A count field on which [int] cannot fail once [str.isdigit] has let it
    through: any value but a string of digits that are not all decimal. *)
Definition count_ok (c : value) : bool :=
  match c with
  | VStr s => negb (isdigit s) || isdecimal s
  | _ => true
  end.

(** A record of the keyword list: an object whose two count fields convert. *)
Definition record_ok (r : value) : bool :=
  match r with
  | VDict d =>
    count_ok (field_or d (lit "monthlyPcQcCnt") (VInt 0))
    && count_ok (field_or d (lit "monthlyMobileQcCnt") (VInt 0))
  | _ => false
  end.

(** What [requests.get] hands back: the status, the body as text, and the
    outcome of parsing the body as JSON. *)
Record response : Type := Response {
  status_code : Z;
  text : pystr;
  json : result value
}.

(** ** Sample inputs *)

Definition sample_record (name : string) (pc mobile : value) : value :=
  VDict [ (lit "relKeyword", VStr (lit name));
          (lit "monthlyPcQcCnt", pc);
          (lit "monthlyMobileQcCnt", mobile);
          (lit "compIdx", VStr (lit "high")) ].

(** Counts given as digit strings, as JSON integers, as the sentinel and as
    text that is no number; the first and the third record tie, and so do the
    second and the fourth. *)
Definition sample_keywords : list value :=
  [ sample_record "loan" (VInt 10) (VStr (lit "< 10"));
    sample_record "grant" (VStr (lit "120")) (VInt 30);
    sample_record "fund" (VStr (lit "n/a")) (VStr (lit "10"));
    sample_record "credit" (VInt 150) (VStr (lit "")) ].

Definition sample_data : value := VDict [ (lit "keywordList", VList sample_keywords) ].

(** Ten records with the counts 1 to 10. *)
Definition ten_keywords : list value :=
  map (fun i => sample_record "k" (VInt (Z.of_nat i)) (VStr (lit "< 10"))) (seq 1 10).

Definition ten_data : value := VDict [ (lit "keywordList", VList ten_keywords) ].

Definition superscript_record : value := sample_record "loan" (VStr [0xB2]) (VInt 30).

(** A network that answers every request with status 200 and the sample
    list, and one that is down. *)
Definition sample_network (url : pystr) (headers params : value) : result response :=
  Ok (Response 200 (lit "") (Ok sample_data)).

Definition no_network (url : pystr) (headers params : value) : result response :=
  Raise RequestException.

(** A JSON-RPC request. *)
Definition rpc_request (id : value) (method : string) (params : value) : value :=
  VDict [ (lit "jsonrpc", VStr (lit "2.0")); (lit "id", id);
          (lit "method", VStr (lit method)); (lit "params", params) ].

(** A quoting of a string that needs no escape, for running the model on
    examples: the text between single quotes. *)
Definition quote_plain (s : pystr) : pystr := [0x27] ++ s ++ [0x27].

(** ** [json.dumps]

    With the defaults of the module: every character outside the printable
    ASCII range is escaped (a character beyond [0xFFFF] as a surrogate pair),
    items are separated by a comma and a space, a key from its value by a
    colon and a space. *)
Definition hex_digit (d : N) : N := if d <? 10 then 0x30 + d else 0x61 + (d - 10).

Definition hex4 (c : N) : pystr :=
  [ hex_digit (c / 4096); hex_digit ((c / 256) mod 16); hex_digit ((c / 16) mod 16);
    hex_digit (c mod 16) ].

Definition json_escape (c : codepoint) : pystr :=
  if c =? 0x22 then [0x5C; 0x22]
  else if c =? 0x5C then [0x5C; 0x5C]
  else if c =? 0x0A then [0x5C; 0x6E]
  else if c =? 0x0D then [0x5C; 0x72]
  else if c =? 0x09 then [0x5C; 0x74]
  else if c =? 0x08 then [0x5C; 0x62]
  else if c =? 0x0C then [0x5C; 0x66]
  else if (0x20 <=? c) && (c <=? 0x7E) then [c]
  else if c <? 0x10000 then [0x5C; 0x75] ++ hex4 c
  else
    [0x5C; 0x75] ++ hex4 (0xD800 + (c - 0x10000) / 1024)
      ++ [0x5C; 0x75] ++ hex4 (0xDC00 + (c - 0x10000) mod 1024).

Definition json_string (s : pystr) : pystr := [0x22] ++ flat_map json_escape s ++ [0x22].

Definition json_float (f : pyfloat) : pystr :=
  match f with
  | FNan => lit "NaN"
  | FInf neg => (if neg then [0x2D] else []) ++ lit "Infinity"
  | FFinite _ _ _ => float_str f
  end.

Fixpoint json_dumps (v : value) : pystr :=
  match v with
  | VNone => lit "null"
  | VBool b => if b then lit "true" else lit "false"
  | VInt z => int_str z
  | VFloat f => json_float f
  | VStr s => json_string s
  | VList items => lit "[" ++ join (lit ", ") (map json_dumps items) ++ lit "]"
  | VDict d =>
    lit "{"
      ++ join (lit ", ")
           (map (fun kv : pystr * value =>
                   let (k, x) := kv in json_string k ++ lit ": " ++ json_dumps x) d)
      ++ lit "}"
  end.

(** ** The event stream of [mcp_sse]

    What the generator does between two of its steps: it hands a chunk to the
    response, or it sleeps.  The stream is followed along the answers that
    [request.is_disconnected()] gives, one for each turn of the loop; it is
    still open when the answers run out, it is over when an answer is [true],
    and it breaks with a [NameError] when the loop reaches [asyncio.sleep]
    and the name [asyncio] is not bound: the module imports it in line 251
    only, when it runs as a script. *)
Inductive stream_event : Type :=
| Yield (chunk : pystr)
| Sleep (seconds : Z).

Inductive stream_end : Set :=
| StillOpen
| ClientGone
| NameErrorRaised.

Definition initialized_chunk : pystr :=
  lit "data: "
    ++ json_dumps (VDict [ (lit "jsonrpc", VStr (lit "2.0"));
                           (lit "method", VStr (lit "initialized")) ])
    ++ [0x0A; 0x0A].

Definition keepalive_chunk : pystr := lit ": keepalive" ++ [0x0A; 0x0A].

(** The [while True] loop of lines 145 to 149. *)
Fixpoint keepalive_loop (asyncio_bound : bool) (polls : list bool)
  : list stream_event * stream_end :=
  match polls with
  | [] => ([], StillOpen)
  | true :: _ => ([], ClientGone)
  | false :: rest =>
    if asyncio_bound then
      let (events, ending) := keepalive_loop asyncio_bound rest in
      (Yield keepalive_chunk :: Sleep 30 :: events, ending)
    else ([Yield keepalive_chunk], NameErrorRaised)
  end.

Definition event_generator (asyncio_bound : bool) (polls : list bool)
  : list stream_event * stream_end :=
  let (events, ending) := keepalive_loop asyncio_bound polls in
  (Yield initialized_chunk :: events, ending).

Record streaming_response : Type := StreamingResponse {
  stream : list stream_event * stream_end;
  media_type : pystr;
  stream_headers : value
}.

Definition mcp_sse (asyncio_bound : bool) (polls : list bool) : streaming_response :=
  StreamingResponse (event_generator asyncio_bound polls)
                    (lit "text/event-stream")
                    (VDict [ (lit "Cache-Control", VStr (lit "no-cache"));
                             (lit "Connection", VStr (lit "keep-alive")) ]).

(** The chunks of a stream, and [n] turns of the loop. *)
Definition chunks_of (events : list stream_event) : list pystr :=
  flat_map (fun e => match e with Yield c => [c] | Sleep _ => [] end) events.

Definition keepalive_turns (n : nat) : list stream_event :=
  concat (repeat [Yield keepalive_chunk; Sleep 30] n).

(** A record that is not an object, and a bound that is neither an integer
    nor [None]. *)
Definition is_dict (v : value) : bool :=
  match v with VDict _ => true | _ => false end.

Definition bad_bound (v : value) : bool :=
  match v with VNone | VInt _ | VBool _ => false | _ => true end.

Definition not_iterable (v : value) : bool :=
  match v with VNone | VBool _ | VInt _ | VFloat _ => true | _ => false end.

(** Further sample inputs: a network that refuses every request, the fields
    of a request, a call of the keyword tool, and two records of different
    sums. *)
Definition denied_network (url : pystr) (headers params : value) : result response :=
  Ok (Response 403 (lit "denied") (Raise JSONDecodeError)).

Definition request_fields (id : value) (method : string) (params : value)
  : list (pystr * value) :=
  [ (lit "jsonrpc", VStr (lit "2.0")); (lit "id", id);
    (lit "method", VStr (lit method)); (lit "params", params) ].

Definition keyword_call_params (args : list (pystr * value)) : list (pystr * value) :=
  [ (lit "name", VStr (lit "get_naver_keywords")); (lit "arguments", VDict args) ].

Definition keyword_call (args : list (pystr * value)) : list (pystr * value) :=
  request_fields (VInt 7) "tools/call" (VDict (keyword_call_params args)).

Definition two_keywords : list value :=
  [ sample_record "loan" (VInt 10) (VStr (lit "< 10"));
    sample_record "grant" (VStr (lit "120")) (VInt 30) ].

Section Server.

(** [repr] of a string (the choice of quotes and the escapes), which the
    handlers reach only through [str] of a list or a dict. *)
Variable str_repr : pystr -> pystr.

Fixpoint py_repr (v : value) : pystr :=
  match v with
  | VNone => lit "None"
  | VBool b => if b then lit "True" else lit "False"
  | VInt z => int_str z
  | VFloat f => float_str f
  | VStr s => str_repr s
  | VList items => lit "[" ++ join (lit ", ") (map py_repr items) ++ lit "]"
  | VDict d =>
    lit "{"
      ++ join (lit ", ")
           (map (fun kv : pystr * value =>
                   let (k, x) := kv in str_repr k ++ lit ": " ++ py_repr x) d)
      ++ lit "}"
  end.

(** [str(v)], also what an f-string puts for [{v}]. *)
Definition py_str (v : value) : pystr :=
  match v with
  | VStr s => s
  | _ => py_repr v
  end.

(** *** [format_keywords] *)

(** The [key] of line 80, one addend:
    [int(x.get(name, 0)) if str(x.get(name, 0)).isdigit() else 0]. *)
Definition key_part (x : value) (name : pystr) : result Z :=
  c <- py_get x name (VInt 0) ;;
  if isdigit (py_str c) then (c' <- py_get x name (VInt 0) ;; py_int c') else Ok 0%Z.

Definition sort_key (x : value) : result Z :=
  pc <- key_part x (lit "monthlyPcQcCnt") ;;
  mobile <- key_part x (lit "monthlyMobileQcCnt") ;;
  Ok (pc + mobile)%Z.

(** Lines 89 and 90:
    [0 if str(c) == "< 10" else int(c) if str(c).isdigit() else 0]. *)
Definition count_val (c : value) : result Z :=
  if str_eqb (py_str c) (lit "< 10") then Ok 0%Z
  else if isdigit (py_str c) then py_int c
  else Ok 0%Z.

(** The body of the loop of line 86: the entry appended for [kw]. *)
Definition keyword_entry (kw : value) : result value :=
  pc <- py_get kw (lit "monthlyPcQcCnt") (VInt 0) ;;
  mobile <- py_get kw (lit "monthlyMobileQcCnt") (VInt 0) ;;
  pc_val <- count_val pc ;;
  mobile_val <- count_val mobile ;;
  rel <- py_get kw (lit "relKeyword") (VStr []) ;;
  comp <- py_get kw (lit "compIdx") (VStr []) ;;
  Ok (VDict [ (lit "keyword", rel);
              (lit "monthlySearches", VInt (pc_val + mobile_val));
              (lit "pcSearches", VInt pc_val);
              (lit "mobileSearches", VInt mobile_val);
              (lit "competition", comp) ]).

Definition keywords_sorted (items : list value) : result (list value) :=
  py_sorted_reverse sort_key items.

Definition format_keywords (data keyword top_n : value) : result value :=
  has_error <- py_in (lit "error") data ;;
  if has_error then Ok data
  else
    has_list <- py_in (lit "keywordList") data ;;
    if negb has_list then Ok (VDict [(lit "error", VStr (lit "키워드 데이터 없음"))])
    else
      keywords <- py_getitem data (lit "keywordList") ;;
      items <- py_iter keywords ;;
      ranked <- keywords_sorted items ;;
      top <- py_slice_to ranked top_n ;;
      entries <- traverse keyword_entry top ;;
      total <- py_len keywords ;;
      Ok (VDict [ (lit "searchKeyword", keyword);
                  (lit "totalResults", VInt total);
                  (lit "topKeywords", VList entries) ]).

(** *** [generate_signature] *)

(** The credentials read from the environment when the module is loaded. *)
Variable CUSTOMER_ID : pystr.
Variable API_KEY : pystr.
Variable SECRET_KEY : pystr.

Definition BASE_URL : pystr := lit "https://api.naver.com".

Definition generate_signature (timestamp method path : value) : result pystr :=
  let message := py_str timestamp ++ lit "." ++ py_str method ++ lit "." ++ py_str path in
  key <- utf8_encode SECRET_KEY ;;
  msg <- utf8_encode message ;;
  let signature := hmac_digest (hmac_new key msg) in
  utf8_decode (b64encode signature).

(** *** [get_related_keywords] *)

(** The clock, read as [int(time.time() * 1000)], and the network: the answer
    (or the failure) of a GET of a URL with given headers and parameters. *)
Variable time_ms : Z.
Variable requests_get : pystr -> value -> value -> result response.

Definition get_related_keywords (keyword : value) : result value :=
  let timestamp := VStr (int_str time_ms) in
  let path := lit "/keywordstool" in
  let method := lit "GET" in
  signature <- generate_signature timestamp (VStr method) (VStr path) ;;
  let headers := VDict [ (lit "X-API-KEY", VStr API_KEY);
                         (lit "X-CUSTOMER", VStr CUSTOMER_ID);
                         (lit "X-Timestamp", timestamp);
                         (lit "X-Signature", VStr signature) ] in
  let params := VDict [ (lit "hintKeywords", keyword);
                        (lit "showDetail", VStr (lit "1")) ] in
  resp <- requests_get (BASE_URL ++ path) headers params ;;
  if (status_code resp =? 200)%Z then json resp
  else Ok (VDict [ (lit "error", VStr (lit "API 오류: " ++ int_str (status_code resp)));
                   (lit "detail", VStr (text resp)) ]).

(** *** The dispatcher [mcp_post] *)

Definition TOOLS : value :=
  VList [
    VDict [
      (lit "name", VStr (lit "get_naver_keywords"));
      (lit "description",
       VStr (lit "네이버 검색광고 API를 사용하여 키워드의 연관 키워드와 월간 검색량을 조회합니다. 블로그 제목 최적화, SEO 키워드 분석에 활용할 수 있습니다."));
      (lit "inputSchema",
       VDict [
         (lit "type", VStr (lit "object"));
         (lit "properties",
          VDict [
            (lit "keyword",
             VDict [ (lit "type", VStr (lit "string"));
                     (lit "description",
                      VStr (lit "검색할 키워드 (예: 소상공인 대환대출, 청년창업지원금)")) ]);
            (lit "top_n",
             VDict [ (lit "type", VStr (lit "integer"));
                     (lit "description", VStr (lit "반환할 상위 키워드 개수 (기본값: 15)"));
                     (lit "default", VInt 15) ]) ]);
         (lit "required", VList [VStr (lit "keyword")]) ]) ] ].

(** The f-string field [{v:,}]. *)
Definition py_format_commas (v : value) : result pystr :=
  match v with
  | VInt z => Ok (int_commas z)
  | VBool b => Ok (int_commas (if b then 1 else 0))
  | VFloat f => Ok (float_commas f)
  | VStr _ => Raise ValueError
  | _ => Raise TypeError
  end.

(** One line of the table: [f"{i} | {kw['keyword']} | ..."]. *)
Definition render_row (i : Z) (kw : value) : result pystr :=
  k <- py_getitem kw (lit "keyword") ;;
  m <- py_getitem kw (lit "monthlySearches") ;;
  m_text <- py_format_commas m ;;
  c <- py_getitem kw (lit "competition") ;;
  Ok (int_str i ++ lit " | " ++ py_str k ++ lit " | " ++ m_text ++ lit " | " ++ py_str c).

(** The loop over [enumerate(formatted['topKeywords'], 1)]. *)
Fixpoint render_rows (i : Z) (kws : list value) : result (list pystr) :=
  match kws with
  | [] => Ok []
  | kw :: rest =>
    row <- render_row i kw ;;
    rows <- render_rows (i + 1) rest ;;
    Ok (row :: rows)
  end.

Definition render_table (formatted : value) : result pystr :=
  search <- py_getitem formatted (lit "searchKeyword") ;;
  total <- py_getitem formatted (lit "totalResults") ;;
  tops <- py_getitem formatted (lit "topKeywords") ;;
  shown <- py_len tops ;;
  let lines :=
    [ lit "🔍 '" ++ py_str search ++ lit "' 연관 키워드 분석 결과";
      lit "총 " ++ py_str total ++ lit "개 키워드 중 상위 " ++ int_str shown ++ lit "개";
      lit "";
      lit "순위 | 키워드 | 월간검색량 | 경쟁강도";
      lit "---|---|---|---" ] in
  tops' <- py_getitem formatted (lit "topKeywords") ;;
  items <- py_iter tops' ;;
  rows <- render_rows 1 items ;;
  Ok (join [0x0A] (lines ++ rows)).

Definition text_content (text : pystr) : value :=
  VDict [ (lit "content",
           VList [ VDict [ (lit "type", VStr (lit "text")); (lit "text", VStr text) ] ]) ].

Definition rpc_result (request_id result : value) : value :=
  VDict [ (lit "jsonrpc", VStr (lit "2.0")); (lit "id", request_id);
          (lit "result", result) ].

(** The last [return] of [mcp_post]. *)
Definition method_not_found (request_id : value) : value :=
  VDict [ (lit "jsonrpc", VStr (lit "2.0")); (lit "id", request_id);
          (lit "error",
           VDict [ (lit "code", VInt (-32601));
                   (lit "message", VStr (lit "Method not found")) ]) ].

(** [mcp_post] on the parsed body of the request; what it returns is the
    content of the JSON response. *)
Definition mcp_post (body : value) : result value :=
  method <- py_get body (lit "method") (VStr (lit "")) ;;
  params <- py_get body (lit "params") (VDict []) ;;
  request_id <- py_get body (lit "id") VNone ;;
  if py_eq_str method (lit "initialize") then
    Ok (rpc_result request_id
          (VDict [ (lit "protocolVersion", VStr (lit "2024-11-05"));
                   (lit "capabilities", VDict [ (lit "tools", VDict []) ]);
                   (lit "serverInfo",
                    VDict [ (lit "name", VStr (lit "naver-keyword-mcp"));
                            (lit "version", VStr (lit "1.0.0")) ]) ]))
  else if py_eq_str method (lit "tools/list") then
    Ok (rpc_result request_id (VDict [ (lit "tools", TOOLS) ]))
  else if py_eq_str method (lit "tools/call") then
    tool_name <- py_get params (lit "name") (VStr (lit "")) ;;
    arguments <- py_get params (lit "arguments") (VDict []) ;;
    if py_eq_str tool_name (lit "get_naver_keywords") then
      keyword <- py_get arguments (lit "keyword") (VStr (lit "")) ;;
      top_n <- py_get arguments (lit "top_n") (VInt 15) ;;
      if negb (py_truthy keyword) then
        Ok (rpc_result request_id (text_content (lit "키워드를 입력해주세요.")))
      else
        raw_data <- get_related_keywords keyword ;;
        formatted <- format_keywords raw_data keyword top_n ;;
        failed <- py_in (lit "error") formatted ;;
        result_text <-
          (if failed
           then e <- py_getitem formatted (lit "error") ;; Ok (lit "오류: " ++ py_str e)
           else render_table formatted) ;;
        Ok (rpc_result request_id (text_content result_text))
    else Ok (method_not_found request_id)
  else Ok (method_not_found request_id).

(** [api_keywords], the REST shortcut. *)
Definition api_keywords (keyword : pystr) (top_n : Z) : result value :=
  raw_data <- get_related_keywords (VStr keyword) ;;
  format_keywords raw_data (VStr keyword) (VInt top_n).


(** *** The quantities the properties are stated with *)

(** Lines 87 to 94: the sum reported for [kw] as [monthlySearches]. *)
Definition monthly_searches (kw : value) : result Z :=
  pc <- py_get kw (lit "monthlyPcQcCnt") (VInt 0) ;;
  mobile <- py_get kw (lit "monthlyMobileQcCnt") (VInt 0) ;;
  pc_val <- count_val pc ;;
  mobile_val <- count_val mobile ;;
  Ok (pc_val + mobile_val)%Z.

(** The normalized PC+mobile sum of a record. *)
Definition normalized_sum (kw : value) : Z :=
  match monthly_searches kw with Ok k => k | Raise _ => 0%Z end.

(** The entry [format_keywords] appends for a record. *)
Definition entry_of (kw : value) : value :=
  match keyword_entry kw with Ok e => e | Raise _ => VNone end.

(** The list [keywords_sorted] of line 78. *)
Definition ranked_list (items : list value) : list value :=
  match keywords_sorted items with Ok l => l | Raise _ => [] end.


(** What [format_keywords] returns on a keyword list. *)
Definition formatted_result (keyword : value) (total : nat) (entries : list value)
  : value :=
  VDict [ (lit "searchKeyword", keyword);
          (lit "totalResults", VInt (Z.of_nat total));
          (lit "topKeywords", VList entries) ].

(** *** The request that goes out and the text that comes back *)

(** The signature of the request of this clock reading. *)
Definition expected_signature : pystr :=
  b64encode (hmac_sha256 (utf8_bytes SECRET_KEY)
               (utf8_bytes (int_str time_ms ++ lit ".GET./keywordstool"))).

Definition signed_headers (timestamp signature : pystr) : value :=
  VDict [ (lit "X-API-KEY", VStr API_KEY);
          (lit "X-CUSTOMER", VStr CUSTOMER_ID);
          (lit "X-Timestamp", VStr timestamp);
          (lit "X-Signature", VStr signature) ].

Definition keyword_params (keyword : value) : value :=
  VDict [ (lit "hintKeywords", keyword); (lit "showDetail", VStr (lit "1")) ].

(** The answer of the network to the request for [keyword]. *)
Definition upstream (keyword : value) : result response :=
  requests_get (lit "https://api.naver.com/keywordstool")
               (signed_headers (int_str time_ms) expected_signature)
               (keyword_params keyword).

(** The object returned for an answer of another status than 200. *)
Definition upstream_error (resp : response) : value :=
  VDict [ (lit "error", VStr (lit "API 오류: " ++ int_str (status_code resp)));
          (lit "detail", VStr (text resp)) ].




(** A [tools/call] of the keyword tool with the arguments [a]. *)
Definition tool_call (d p a : list (pystr * value)) : Prop :=
  field_or d (lit "method") (VStr (lit "")) = VStr (lit "tools/call")
  /\ field_or d (lit "params") (VDict []) = VDict p
  /\ field_or p (lit "name") (VStr (lit "")) = VStr (lit "get_naver_keywords")
  /\ field_or p (lit "arguments") (VDict []) = VDict a.
(** ** Proofs *)

Arguments lit : simpl never.

(** *** Results *)

Lemma bind_ok {A B : Type} (m : result A) (k : A -> result B) (a : A) :
  m = Ok a -> bind m k = k a.
Proof. intros ->. reflexivity. Qed.

Lemma traverse_total {A B : Type} (f : A -> result B) (g : A -> B) (l : list A) :
  Forall (fun a => f a = Ok (g a)) l -> traverse f l = Ok (map g l).
Proof.
  induction 1 as [|a r Ha _ IH]; simpl.
  - reflexivity.
  - rewrite Ha, IH. reflexivity.
Qed.

(** *** Strings *)

Lemma str_eqb_eq (s t : pystr) : str_eqb s t = true <-> s = t.
Proof.
  unfold str_eqb. destruct (list_eq_dec N.eq_dec s t); split; congruence.
Qed.

Lemma str_eqb_refl (s : pystr) : str_eqb s s = true.
Proof. apply str_eqb_eq. reflexivity. Qed.

Lemma str_eqb_neq (s t : pystr) : s <> t -> str_eqb s t = false.
Proof.
  intros H. destruct (str_eqb s t) eqn:E; [|reflexivity].
  apply str_eqb_eq in E. contradiction.
Qed.

(** *** The stable descending sort *)

Section Sorting.

Variable A : Type.

Lemma insert_desc_perm (k : Z) (x : A) (l : list (Z * A)) :
  Permutation ((k, x) :: l) (insert_desc k x l).
Proof.
  induction l as [|[k' y] rest IH]; simpl.
  - apply Permutation_refl.
  - destruct (k <? k')%Z.
    + eapply perm_trans; [apply perm_swap|]. apply perm_skip. exact IH.
    + apply Permutation_refl.
Qed.

Lemma sort_desc_perm (l : list (Z * A)) : Permutation l (sort_desc l).
Proof.
  induction l as [|[k x] rest IH]; simpl.
  - apply perm_nil.
  - eapply perm_trans; [apply perm_skip, IH|]. apply insert_desc_perm.
Qed.

Lemma insert_desc_sorted (k : Z) (x : A) (l : list (Z * A)) :
  StronglySorted key_ge l -> StronglySorted key_ge (insert_desc k x l).
Proof.
  induction 1 as [|[k' y] rest Hs IH Hall]; simpl.
  - constructor; constructor.
  - destruct (k <? k')%Z eqn:E.
    + constructor; [exact IH|].
      apply (Permutation_Forall (insert_desc_perm k x rest)).
      constructor; [|exact Hall].
      unfold key_ge; simpl. apply Z.ltb_lt in E. lia.
    + apply Z.ltb_ge in E.
      constructor; [constructor; assumption|].
      constructor; [unfold key_ge; simpl; lia|].
      eapply Forall_impl; [|exact Hall].
      intros [k'' z]; unfold key_ge; simpl. lia.
Qed.

Lemma sort_desc_sorted (l : list (Z * A)) : StronglySorted key_ge (sort_desc l).
Proof.
  induction l as [|[k x] rest IH]; simpl.
  - constructor.
  - apply insert_desc_sorted, IH.
Qed.

(** An item overtakes only items of a strictly greater key, so among the
    items of one key it stays first. *)
Lemma insert_desc_filter (j k : Z) (x : A) (l : list (Z * A)) :
  filter (key_is j) (insert_desc k x l) =
  if (k =? j)%Z then (k, x) :: filter (key_is j) l else filter (key_is j) l.
Proof.
  induction l as [|[k' y] rest IH]; simpl.
  - unfold key_is; simpl. destruct (k =? j)%Z; reflexivity.
  - destruct (k <? k')%Z eqn:E; simpl; [rewrite IH|];
      unfold key_is; simpl;
      destruct (k' =? j)%Z eqn:E1, (k =? j)%Z eqn:E2; try reflexivity.
    apply Z.eqb_eq in E1, E2. apply Z.ltb_lt in E. lia.
Qed.

Lemma sort_desc_filter (j : Z) (l : list (Z * A)) :
  filter (key_is j) (sort_desc l) = filter (key_is j) l.
Proof.
  induction l as [|[k x] rest IH]; simpl.
  - reflexivity.
  - rewrite insert_desc_filter, IH. unfold key_is; simpl.
    destruct (k =? j)%Z; reflexivity.
Qed.

(** The same three facts for [py_sorted_reverse] with a key that never
    raises on the items. *)
Variable key : A -> result Z.
Variable rank : A -> Z.

Lemma decorate_map (l : list A) : decorate rank l = map (fun a => (rank a, a)) l.
Proof.
  unfold decorate. induction l as [|a r IH]; simpl; [reflexivity|].
  rewrite IH. reflexivity.
Qed.

Lemma decorate_snd (l : list A) : map snd (decorate rank l) = l.
Proof.
  rewrite decorate_map, map_map. simpl. apply map_id.
Qed.

Lemma decorate_keys (l : list A) :
  Forall (fun p => fst p = rank (snd p)) (sort_desc (decorate rank l)).
Proof.
  apply (Permutation_Forall (sort_desc_perm (decorate rank l))).
  rewrite decorate_map. apply Forall_forall. intros p Hp.
  apply in_map_iff in Hp. destruct Hp as [a [<- _]]. reflexivity.
Qed.

Lemma py_sorted_reverse_run (l : list A) :
  Forall (fun a => key a = Ok (rank a)) l ->
  py_sorted_reverse key l = Ok (map snd (sort_desc (decorate rank l))).
Proof.
  intros H. unfold py_sorted_reverse.
  rewrite (traverse_total key rank l H). reflexivity.
Qed.

Lemma sorted_perm (l : list A) : Permutation l (map snd (sort_desc (decorate rank l))).
Proof.
  rewrite <- (decorate_snd l) at 1.
  apply Permutation_map, sort_desc_perm.
Qed.

Lemma undecorate_sorted (s : list (Z * A)) :
  Forall (fun p => fst p = rank (snd p)) s ->
  StronglySorted key_ge s ->
  StronglySorted (fun a b => rank b <= rank a)%Z (map snd s).
Proof.
  intros Hk Hs. induction Hs as [|p rest Hs IH Hall]; simpl.
  - constructor.
  - inversion Hk as [|? ? Hp Hrest]; subst.
    constructor; [apply IH, Hrest|].
    apply Forall_forall. intros b Hb.
    apply in_map_iff in Hb. destruct Hb as [q [<- Hq]].
    rewrite Forall_forall in Hall, Hrest.
    specialize (Hall q Hq). specialize (Hrest q Hq).
    unfold key_ge in Hall. lia.
Qed.

Lemma sorted_descending (l : list A) :
  StronglySorted (fun a b => rank b <= rank a)%Z (map snd (sort_desc (decorate rank l))).
Proof.
  apply undecorate_sorted; [apply decorate_keys | apply sort_desc_sorted].
Qed.

Lemma undecorate_filter (j : Z) (s : list (Z * A)) :
  Forall (fun p => fst p = rank (snd p)) s ->
  filter (fun a => rank a =? j)%Z (map snd s) = map snd (filter (key_is j) s).
Proof.
  induction 1 as [|p rest Hp _ IH]; simpl; [reflexivity|].
  rewrite IH. unfold key_is. rewrite Hp.
  destruct (rank (snd p) =? j)%Z; reflexivity.
Qed.

Lemma sorted_stable (j : Z) (l : list A) :
  filter (fun a => rank a =? j)%Z (map snd (sort_desc (decorate rank l))) =
  filter (fun a => rank a =? j)%Z l.
Proof.
  rewrite undecorate_filter by apply decorate_keys.
  rewrite sort_desc_filter.
  rewrite <- undecorate_filter, decorate_snd; [reflexivity|].
  rewrite decorate_map. apply Forall_forall. intros p Hp.
  apply in_map_iff in Hp. destruct Hp as [a [<- _]]. reflexivity.
Qed.

(** A list in descending order of the keys is determined by its items of each
    key, taken in order: two stable sorts of one list agree. *)
Lemma stable_sort_unique (l1 l2 : list A) :
  StronglySorted (fun a b => rank b <= rank a)%Z l1 ->
  StronglySorted (fun a b => rank b <= rank a)%Z l2 ->
  (forall k, filter (fun a => rank a =? k)%Z l1 = filter (fun a => rank a =? k)%Z l2) ->
  l1 = l2.
Proof.
  intros S1. revert l2. induction S1 as [|a l1 S1 IH H1]; intros l2 S2 F.
  - destruct l2 as [|b l2]; [reflexivity|].
    specialize (F (rank b)). simpl in F. rewrite Z.eqb_refl in F. discriminate F.
  - destruct l2 as [|b l2].
    { specialize (F (rank a)). simpl in F. rewrite Z.eqb_refl in F. discriminate F. }
    inversion S2 as [|? ? S2' H2]; subst.
    assert (Ha : In a (b :: l2)).
    { pose proof (F (rank a)) as Fa. simpl in Fa. rewrite Z.eqb_refl in Fa.
      assert (Hin : In a (filter (fun x => rank x =? rank a)%Z (b :: l2)))
        by (simpl; rewrite <- Fa; left; reflexivity).
      apply filter_In in Hin. apply Hin. }
    assert (Hb : In b (a :: l1)).
    { pose proof (F (rank b)) as Fb. simpl in Fb. rewrite Z.eqb_refl in Fb.
      assert (Hin : In b (filter (fun x => rank x =? rank b)%Z (a :: l1)))
        by (simpl; rewrite Fb; left; reflexivity).
      apply filter_In in Hin. apply Hin. }
    assert (E : rank a = rank b).
    { destruct Ha as [->|Ha]; [reflexivity|].
      destruct Hb as [->|Hb]; [reflexivity|].
      rewrite Forall_forall in H1, H2.
      specialize (H2 a Ha). specialize (H1 b Hb). lia. }
    assert (Eab : a = b).
    { specialize (F (rank a)). simpl in F. rewrite <- E, Z.eqb_refl in F.
      injection F as F _. exact F. }
    subst b. f_equal. apply IH; [exact S2'|].
    intros k. specialize (F k). simpl in F.
    destruct (rank a =? k)%Z; [injection F as F; exact F | exact F].
Qed.

End Sorting.

(** *** Digits, integers and floats as text *)

Lemma decimal_is_digit (c : codepoint) : is_decimal c = true -> is_digit c = true.
Proof. intros H. unfold is_digit. rewrite H. reflexivity. Qed.

Lemma isdecimal_isdigit (s : pystr) : isdecimal s = true -> isdigit s = true.
Proof.
  destruct s as [|c r]; [discriminate|].
  unfold isdecimal, isdigit. intros H.
  apply forallb_forall. intros x Hx.
  apply decimal_is_digit. revert x Hx. apply forallb_forall. exact H.
Qed.

Lemma isdigit_nondigit (s : pystr) (c : codepoint) :
  In c s -> is_digit c = false -> isdigit s = false.
Proof.
  intros Hin Hc. destruct s as [|a r]; [reflexivity|].
  unfold isdigit. destruct (forallb is_digit (a :: r)) eqn:E; [|reflexivity].
  rewrite forallb_forall in E. rewrite (E c Hin) in Hc. discriminate.
Qed.

Lemma uint_chars_decimal (u : Decimal.uint) : forallb is_decimal (uint_chars u) = true.
Proof.
  induction u; cbn [uint_chars forallb]; try rewrite IHu; reflexivity.
Qed.

Lemma uint_chars_nonnil (u : Decimal.uint) : u <> Decimal.Nil -> uint_chars u <> [].
Proof. destruct u; simpl; congruence. Qed.

Lemma isdecimal_uint (u : Decimal.uint) :
  u <> Decimal.Nil -> isdecimal (uint_chars u) = true.
Proof.
  intros H. unfold isdecimal.
  destruct (uint_chars u) eqn:E.
  - exfalso. revert E. apply uint_chars_nonnil, H.
  - rewrite <- E. apply uint_chars_decimal.
Qed.

Lemma to_int_pos (z : Z) :
  (0 <= z)%Z -> exists u, Z.to_int z = Decimal.Pos u /\ u <> Decimal.Nil.
Proof.
  destruct z as [|p|p]; intros H; [| |lia].
  - exists (Decimal.D0 Decimal.Nil). split; [reflexivity|discriminate].
  - exists (Pos.to_uint p). split; [reflexivity|].
    apply DecimalPos.Unsigned.to_uint_nonnil.
Qed.

Lemma to_int_neg (z : Z) : (z < 0)%Z -> exists u, Z.to_int z = Decimal.Neg u.
Proof.
  destruct z as [|p|p]; intros H; [lia|lia|].
  exists (Pos.to_uint p). reflexivity.
Qed.

(** [str] of an integer passes [isdigit] exactly when the integer is not
    negative. *)
Lemma int_str_isdigit (z : Z) : isdigit (int_str z) = (0 <=? z)%Z.
Proof.
  unfold int_str. destruct (0 <=? z)%Z eqn:E.
  - apply Z.leb_le in E. destruct (to_int_pos z E) as [u [-> Hu]].
    apply isdecimal_isdigit, isdecimal_uint, Hu.
  - apply Z.leb_gt in E. destruct (to_int_neg z E) as [u ->].
    apply isdigit_nondigit with (c := 0x2D); [left|]; reflexivity.
Qed.

Lemma int_str_sentinel (z : Z) : int_str z <> lit "< 10".
Proof.
  intros H. destruct (Z.leb_spec 0 z) as [Hz|Hz].
  - pose proof (int_str_isdigit z) as D. rewrite H in D.
    apply Z.leb_le in Hz. rewrite Hz in D. discriminate D.
  - unfold int_str in H. destruct (to_int_neg z Hz) as [u E]. rewrite E in H.
    discriminate H.
Qed.

Lemma in_float_fixed (ds : list N) (decpt : Z) : In 0x2E (float_fixed ds decpt).
Proof.
  unfold float_fixed.
  destruct (decpt <=? 0)%Z; [|destruct (Z.of_nat (length ds) <=? decpt)%Z].
  - right; left; reflexivity.
  - apply in_or_app; right. apply in_or_app; right. left; reflexivity.
  - apply in_or_app; right. left; reflexivity.
Qed.

Lemma in_float_exp (ds : list N) (decpt : Z) : In 0x65 (float_exp ds decpt).
Proof.
  unfold float_exp. apply in_or_app; right. left; reflexivity.
Qed.

(** The text of a float always holds a point, an [e] or an [n]. *)
Lemma float_str_mark (f : pyfloat) :
  exists c, In c (float_str f) /\ is_digit c = false.
Proof.
  destruct f as [|neg|neg ds decpt]; simpl.
  - exists 0x6E. split; [left|]; reflexivity.
  - exists 0x6E. split; [|reflexivity].
    apply in_or_app; right. right; left; reflexivity.
  - destruct ((decpt <=? -4)%Z || (16 <? decpt)%Z).
    + exists 0x65. split; [|reflexivity].
      apply in_or_app; right. apply in_float_exp.
    + exists 0x2E. split; [|reflexivity].
      apply in_or_app; right. apply in_float_fixed.
Qed.

Lemma float_str_isdigit (f : pyfloat) : isdigit (float_str f) = false.
Proof.
  destruct (float_str_mark f) as [c [Hin Hc]].
  exact (isdigit_nondigit _ c Hin Hc).
Qed.

(** *** [int] on a string of digits *)

Lemma space_not_digit (c : codepoint) : is_digit c = true -> is_int_space c = false.
Proof.
  intros Hd. destruct (is_int_space c) eqn:E; [|reflexivity].
  unfold is_int_space in E. apply andb_prop in E. destruct E as [E _].
  unfold is_space in E. apply existsb_exists in E. destruct E as [x [Hx Hc]].
  apply N.eqb_eq in Hc. subst x.
  assert (T : forallb (fun x => negb (is_digit x)) whitespace_points = true)
    by (vm_compute; reflexivity).
  rewrite forallb_forall in T. specialize (T c Hx). rewrite Hd in T. discriminate.
Qed.

Lemma drop_while_head (p : codepoint -> bool) (c : codepoint) (r : pystr) :
  p c = false -> drop_while p (c :: r) = c :: r.
Proof. intros H. simpl. rewrite H. reflexivity. Qed.

Lemma int_strip_digits (s : pystr) : isdigit s = true -> int_strip s = s.
Proof.
  intros H. destruct s as [|c r]; [discriminate|].
  unfold isdigit in H. rewrite forallb_forall in H.
  unfold int_strip.
  rewrite drop_while_head by (apply space_not_digit, H; left; reflexivity).
  destruct (rev (c :: r)) as [|l t] eqn:E.
  - apply (f_equal (@rev N)) in E. rewrite rev_involutive in E. discriminate.
  - rewrite drop_while_head.
    + rewrite <- E. apply rev_involutive.
    + apply space_not_digit, H. apply in_rev. rewrite E. left; reflexivity.
Qed.

Lemma decimal_value_some (c : codepoint) :
  is_decimal c = true -> decimal_value c = Some (digit_or_zero c).
Proof.
  unfold is_decimal, digit_or_zero. destruct (decimal_value c); [reflexivity|discriminate].
Qed.

Lemma decimal_char_plain (c : codepoint) :
  is_digit c = true -> (c =? 0x5F) = false /\ (c =? 0x2D) = false /\ (c =? 0x2B) = false.
Proof.
  intros H. repeat split.
  all: destruct (N.eqb_spec c 0x5F), (N.eqb_spec c 0x2D), (N.eqb_spec c 0x2B);
    subst; try reflexivity; discriminate.
Qed.

Lemma int_digits_tail_decimal (r : pystr) (acc : N) :
  forallb is_decimal r = true ->
  int_digits_tail acc r = Some (fold_left (fun a c => 10 * a + digit_or_zero c) r acc).
Proof.
  revert acc. induction r as [|c r IH]; intros acc H; [reflexivity|].
  simpl in H. apply andb_prop in H. destruct H as [Hc Hr].
  cbn [int_digits_tail fold_left].
  destruct (decimal_char_plain c (decimal_is_digit c Hc)) as [-> _].
  rewrite (decimal_value_some c Hc). apply IH, Hr.
Qed.

(** A string of decimal digits parses to the number it writes. *)
Lemma int_of_str_decimal (s : pystr) :
  isdecimal s = true -> int_of_str s = Ok (decimal_number s).
Proof.
  intros H. unfold int_of_str.
  rewrite (int_strip_digits s (isdecimal_isdigit s H)).
  destruct s as [|c r]; [discriminate|].
  unfold isdecimal in H. cbn [forallb] in H. apply andb_prop in H.
  destruct H as [Hc Hr].
  destruct (decimal_char_plain c (decimal_is_digit c Hc)) as [_ [-> ->]].
  unfold int_digits. rewrite (decimal_value_some c Hc).
  rewrite (int_digits_tail_decimal r _ Hr).
  unfold decimal_number. cbn [fold_left]. reflexivity.
Qed.



(** *** [str] of a value and the two normalizations of a count *)

Lemma py_str_list_isdigit (items : list value) : isdigit (py_str (VList items)) = false.
Proof.
  apply isdigit_nondigit with (c := 0x5B); [|reflexivity].
  cbn [py_str py_repr]. change (lit "[") with [0x5B]. left; reflexivity.
Qed.

Lemma py_str_dict_isdigit (d : list (pystr * value)) : isdigit (py_str (VDict d)) = false.
Proof.
  apply isdigit_nondigit with (c := 0x7B); [|reflexivity].
  cbn [py_str py_repr]. change (lit "{") with [0x7B]. left; reflexivity.
Qed.

Lemma count_val_nondigit (c : value) : isdigit (py_str c) = false -> count_val c = Ok 0%Z.
Proof.
  intros H. unfold count_val. rewrite H.
  destruct (str_eqb (py_str c) (lit "< 10")); reflexivity.
Qed.

Lemma count_val_int (z : Z) : count_val (VInt z) = Ok (if (0 <=? z)%Z then z else 0%Z).
Proof.
  unfold count_val. cbn [py_str py_repr py_int].
  rewrite (str_eqb_neq _ _ (int_str_sentinel z)), int_str_isdigit.
  destruct (0 <=? z)%Z; reflexivity.
Qed.

(** On a count that converts, the code computes the normalization. *)
Lemma count_val_normalized (c : value) :
  count_ok c = true -> count_val c = Ok (normalized_count (Some c)).
Proof.
  intros H. destruct c as [|b|z|f|s|items|d].
  - apply count_val_nondigit. reflexivity.
  - apply count_val_nondigit. destruct b; reflexivity.
  - apply count_val_int.
  - apply count_val_nondigit, float_str_isdigit.
  - unfold count_val, normalized_count. cbn [py_str py_int].
    destruct (str_eqb s (lit "< 10")); [reflexivity|].
    simpl in H. destruct (isdecimal s) eqn:D.
    + rewrite (isdecimal_isdigit s D). apply int_of_str_decimal, D.
    + rewrite orb_false_r in H. apply negb_true_iff in H. rewrite H. reflexivity.
  - apply count_val_nondigit, py_str_list_isdigit.
  - apply count_val_nondigit, py_str_dict_isdigit.
Qed.

Lemma count_val_field (d : list (pystr * value)) (name : pystr) :
  count_ok (field_or d name (VInt 0)) = true ->
  count_val (field_or d name (VInt 0)) = Ok (normalized_count (assoc name d)).
Proof.
  intros H. rewrite (count_val_normalized _ H).
  unfold field_or. destruct (assoc name d); reflexivity.
Qed.


(** The sentinel never passes [isdigit], so the key of the sort, which has
    no branch for it, agrees with the value computed for the output. *)
Lemma key_part_count_val (x : value) (name : pystr) :
  key_part x name = (c <- py_get x name (VInt 0) ;; count_val c).
Proof.
  unfold key_part, count_val.
  destruct (py_get x name (VInt 0)) as [c|e]; [|reflexivity].
  cbn [bind].
  destruct (str_eqb (py_str c) (lit "< 10")) eqn:S; [|reflexivity].
  apply str_eqb_eq in S. rewrite S. reflexivity.
Qed.

Lemma sort_key_monthly (x : value) : sort_key x = monthly_searches x.
Proof.
  unfold sort_key, monthly_searches. rewrite !key_part_count_val.
  destruct x; reflexivity.
Qed.

(** *** [format_keywords] on a keyword list *)

Lemma monthly_searches_run (d : list (pystr * value)) :
  record_ok (VDict d) = true ->
  monthly_searches (VDict d) =
  Ok (normalized_count (assoc (lit "monthlyPcQcCnt") d)
      + normalized_count (assoc (lit "monthlyMobileQcCnt") d))%Z.
Proof.
  intros H. simpl in H. apply andb_prop in H. destruct H as [Hp Hm].
  unfold monthly_searches. cbn [py_get bind].
  rewrite (count_val_field _ _ Hp), (count_val_field _ _ Hm). reflexivity.
Qed.

Lemma keyword_entry_run (d : list (pystr * value)) :
  record_ok (VDict d) = true ->
  keyword_entry (VDict d) = Ok (entry_with normalized_count (VDict d)).
Proof.
  intros H. simpl in H. apply andb_prop in H. destruct H as [Hp Hm].
  unfold keyword_entry. cbn [py_get bind].
  rewrite (count_val_field _ _ Hp), (count_val_field _ _ Hm). reflexivity.
Qed.

Lemma record_ok_dict (r : value) :
  record_ok r = true -> exists d, r = VDict d.
Proof. destruct r; try discriminate. intros _. eexists; reflexivity. Qed.

Lemma entry_of_run (r : value) :
  record_ok r = true ->
  keyword_entry r = Ok (entry_of r) /\ entry_of r = entry_with normalized_count r.
Proof.
  intros H. destruct (record_ok_dict r H) as [d ->].
  unfold entry_of. rewrite (keyword_entry_run d H). split; reflexivity.
Qed.

Lemma sort_key_run (r : value) :
  record_ok r = true -> sort_key r = Ok (normalized_sum r).
Proof.
  intros H. destruct (record_ok_dict r H) as [d ->].
  rewrite sort_key_monthly. unfold normalized_sum.
  rewrite (monthly_searches_run d H). reflexivity.
Qed.


Lemma slice_to_incl {A : Type} (l : list A) (n : Z) (a : A) :
  In a (slice_to l n) -> In a l.
Proof.
  unfold slice_to. destruct (0 <=? n)%Z; intros H.
  - rewrite <- (firstn_skipn (Z.to_nat n) l). apply in_or_app. left; exact H.
  - rewrite <- (firstn_skipn (Z.to_nat (Z.of_nat (length l) + n)) l).
    apply in_or_app. left; exact H.
Qed.

Lemma keywords_sorted_run (kws : list value) :
  forallb record_ok kws = true ->
  keywords_sorted kws = Ok (map snd (sort_desc (decorate normalized_sum kws))).
Proof.
  intros H. unfold keywords_sorted. apply py_sorted_reverse_run.
  apply Forall_forall. intros r Hr. apply sort_key_run.
  rewrite forallb_forall in H. apply H, Hr.
Qed.

Lemma ranked_list_ok (kws : list value) :
  forallb record_ok kws = true ->
  forallb record_ok (ranked_list kws) = true.
Proof.
  intros H. unfold ranked_list. rewrite (keywords_sorted_run kws H).
  apply forallb_forall. intros r Hr.
  rewrite forallb_forall in H. apply H.
  apply (Permutation_in r (Permutation_sym (sorted_perm value normalized_sum kws))), Hr.
Qed.

(** The run of [format_keywords] on an object without [error] whose
    [keywordList] is a list of records. *)
Lemma format_keywords_run (d : list (pystr * value)) (kws : list value)
      (keyword : value) (n : Z) :
  assoc (lit "error") d = None ->
  assoc (lit "keywordList") d = Some (VList kws) ->
  forallb record_ok kws = true ->
  format_keywords (VDict d) keyword (VInt n) =
  Ok (formatted_result keyword (length kws)
        (map entry_of (slice_to (ranked_list kws) n))).
Proof.
  intros He Hk Hr. pose proof (ranked_list_ok kws Hr) as Hs.
  unfold format_keywords, ranked_list in *. cbn [py_in py_getitem].
  rewrite He, Hk. cbn [bind negb py_iter].
  rewrite (keywords_sorted_run kws Hr) in *. cbn [bind py_slice_to py_len].
  rewrite (traverse_total keyword_entry entry_of).
  - reflexivity.
  - apply Forall_forall. intros r Hin. apply entry_of_run.
    rewrite forallb_forall in Hs. apply Hs. eapply slice_to_incl, Hin.
Qed.

(** *** Order of the list that is returned *)




Lemma ranked_list_run (kws : list value) :
  forallb record_ok kws = true ->
  ranked_list kws = map snd (sort_desc (decorate normalized_sum kws)).
Proof.
  intros H. unfold ranked_list. rewrite (keywords_sorted_run kws H). reflexivity.
Qed.


(** ** The properties of the specification *)





(** C6.  An input that carries an [error] field is returned as it is,
    whatever the keyword and the bound. *)
Theorem format_passes_error
        (d : list (pystr * value)) (keyword top_n err : value) :
  assoc (lit "error") d = Some err ->
  format_keywords (VDict d) keyword top_n = Ok (VDict d).
Proof.
  intros He. unfold format_keywords. cbn [py_in]. rewrite He. reflexivity.
Qed.

(** C7.  An input with neither an [error] nor a [keywordList] field gives
    exactly the object whose [error] is the message that no keyword data is
    there. *)
Theorem format_without_list
        (d : list (pystr * value)) (keyword top_n : value) :
  assoc (lit "error") d = None ->
  assoc (lit "keywordList") d = None ->
  format_keywords (VDict d) keyword top_n
  = Ok (VDict [ (lit "error", VStr (lit "키워드 데이터 없음")) ]).
Proof.
  intros He Hk. unfold format_keywords. cbn [py_in]. rewrite He.
  cbn [bind]. rewrite Hk. reflexivity.
Qed.


(** *** The signature *)

Lemma utf8_encode_total (s : pystr) :
  encodable s = true -> utf8_encode s = Ok (utf8_bytes s).
Proof.
  induction s as [|c r IH]; intros H; [reflexivity|].
  cbn [encodable forallb] in H. apply andb_prop in H. destruct H as [Hc Hr].
  apply andb_prop in Hc. destruct Hc as [Hmax Hsur].
  cbn [utf8_encode utf8_bytes flat_map]. fold (utf8_bytes r).
  unfold utf8_char. rewrite Hmax. rewrite negb_true_iff in Hsur. rewrite Hsur.
  rewrite (IH Hr).
  destruct (c <? 0x80); [reflexivity|].
  destruct (c <? 0x800); [reflexivity|].
  destruct (c <? 0x10000); reflexivity.
Qed.

Lemma encodable_app (s t : pystr) : encodable (s ++ t) = encodable s && encodable t.
Proof. apply forallb_app. Qed.

Lemma encodable_uint (u : Decimal.uint) : encodable (uint_chars u) = true.
Proof.
  induction u; cbn [uint_chars encodable forallb]; try reflexivity;
    fold (encodable (uint_chars u)); rewrite IHu; reflexivity.
Qed.

Lemma encodable_int_str (z : Z) : encodable (int_str z) = true.
Proof.
  unfold int_str. destruct (Z.to_int z) as [u|u].
  - apply encodable_uint.
  - cbn [encodable forallb]. fold (encodable (uint_chars u)).
    rewrite encodable_uint. reflexivity.
Qed.

(** What the [HMAC] object of [hmac.py] computes is the formula of RFC 2104. *)
Lemma hmac_object_digest (key msg : bytes) :
  hmac_digest (hmac_new key msg) = hmac_sha256 key msg.
Proof.
  unfold hmac_digest, hmac_new, hmac_sha256, hmac_key_block.
  unfold hash_digest, hash_update, hash_new, ljust, translate.
  cbn [inner outer app]. reflexivity.
Qed.

Lemma be_bytes_length (width : nat) (x : N) : length (be_bytes width x) = width.
Proof. unfold be_bytes. rewrite length_map, length_rev, length_seq. reflexivity. Qed.

(** A digest has 32 bytes. *)
Lemma sha256_length (msg : bytes) : length (sha256 msg) = 32%nat.
Proof.
  unfold sha256. cbn [flat_map]. rewrite !length_app, !be_bytes_length. reflexivity.
Qed.

Lemma b64_char_standard (i : N) : is_b64_char (b64_char i) = true.
Proof.
  unfold b64_char, is_b64_char.
  destruct (N.ltb_spec i 26); [|destruct (N.ltb_spec i 52);
    [|destruct (N.ltb_spec i 62); [|destruct (N.eqb_spec i 62)]]];
    rewrite !orb_true_iff, !andb_true_iff, !N.leb_le, !N.eqb_eq; lia.
Qed.

Lemma b64_char_ascii (i : N) : (b64_char i <? 0x80) = true.
Proof.
  unfold b64_char. apply N.ltb_lt.
  destruct (N.ltb_spec i 26); [lia|].
  destruct (N.ltb_spec i 52); [lia|].
  destruct (N.ltb_spec i 62); [lia|].
  destruct (i =? 62); lia.
Qed.

(** The base64 text of 32 bytes: 43 characters of the standard alphabet and
    one padding sign. *)
Lemma b64encode_digest (bs : bytes) :
  length bs = 32%nat ->
  length (b64encode bs) = 44%nat
  /\ last (b64encode bs) 0 = 0x3D
  /\ forallb is_b64_char (removelast (b64encode bs)) = true
  /\ forallb (fun b => b <? 0x80) (b64encode bs) = true.
Proof.
  intros H.
  do 32 (destruct bs as [|? bs]; [discriminate H|]).
  destruct bs; [|discriminate H]. clear H.
  cbn [b64encode app length last removelast forallb].
  rewrite !b64_char_standard, !b64_char_ascii. repeat split; reflexivity.
Qed.

Lemma utf8_decode_ascii (bs : bytes) :
  forallb (fun b => b <? 0x80) bs = true -> utf8_decode bs = Ok bs.
Proof.
  induction bs as [|b r IH]; intros H; [reflexivity|].
  cbn [forallb] in H. apply andb_prop in H. destruct H as [Hb Hr].
  cbn [utf8_decode]. rewrite Hb, (IH Hr). reflexivity.
Qed.

Lemma generate_signature_run (timestamp : value) (method path : pystr) :
  encodable SECRET_KEY = true ->
  encodable (py_str timestamp) = true ->
  encodable method = true ->
  encodable path = true ->
  generate_signature timestamp (VStr method) (VStr path)
  = Ok (b64encode
          (hmac_sha256 (utf8_bytes SECRET_KEY)
             (utf8_bytes (py_str timestamp ++ lit "." ++ method ++ lit "." ++ path)))).
Proof.
  intros Hk Ht Hm Hp. unfold generate_signature. cbn [py_str].
  rewrite (utf8_encode_total SECRET_KEY Hk). cbn [bind].
  rewrite utf8_encode_total.
  - cbn [bind]. rewrite hmac_object_digest.
    apply utf8_decode_ascii.
    apply (b64encode_digest _ (sha256_length _)).
  - rewrite !encodable_app, Ht, Hm, Hp. reflexivity.
Qed.

(** C2.  For a timestamp, a method, a path and a secret (strings that have a
    UTF-8 encoding), the signature is the standard base64 text of the
    HMAC-SHA256 digest, keyed by the UTF-8 bytes of the secret, of the UTF-8
    bytes of ["{timestamp}.{method}.{path}"], the timestamp being given as an
    integer or as its decimal text: 43 characters of the standard alphabet
    followed by one padding sign.  It is a function of these four inputs
    only. *)
Theorem signature_is_base64_hmac (timestamp : Z) (method path : pystr) :
  encodable SECRET_KEY = true ->
  encodable method = true ->
  encodable path = true ->
  let message := int_str timestamp ++ lit "." ++ method ++ lit "." ++ path in
  let expected :=
    b64encode (hmac_sha256 (utf8_bytes SECRET_KEY) (utf8_bytes message)) in
  generate_signature (VInt timestamp) (VStr method) (VStr path) = Ok expected
  /\ generate_signature (VStr (int_str timestamp)) (VStr method) (VStr path)
     = Ok expected
  /\ length expected = 44%nat
  /\ last expected 0 = 0x3D
  /\ forallb is_b64_char (removelast expected) = true.
Proof.
  intros Hk Hm Hp message expected.
  split; [|split].
  - apply generate_signature_run; try assumption. apply encodable_int_str.
  - apply generate_signature_run; try assumption. apply encodable_int_str.
  - destruct (b64encode_digest _ (sha256_length
               (map (N.lxor 0x5C) (hmac_key_block (utf8_bytes SECRET_KEY))
                ++ sha256 (map (N.lxor 0x36) (hmac_key_block (utf8_bytes SECRET_KEY))
                           ++ utf8_bytes message))))
      as [H1 [H2 [H3 _]]].
    repeat split; assumption.
Qed.

(** *** The dispatcher *)


Lemma py_eq_str_same (s : pystr) : py_eq_str (VStr s) s = true.
Proof. apply str_eqb_refl. Qed.



(** ** Further properties of the handlers *)

(** *** [format_keywords]: bounds, failures and order *)

Lemma format_keywords_error_key (data keyword top_n : value) :
  py_in (lit "error") data = Ok true ->
  format_keywords data keyword top_n = Ok data.
Proof. intros H. unfold format_keywords. rewrite H. reflexivity. Qed.












(** X6.  A [keywordList] that is [None], a boolean or a number cannot be
    sorted: [format_keywords] raises [TypeError]. *)
Theorem list_not_iterable_raises
        (d : list (pystr * value)) (v keyword top_n : value) :
  assoc (lit "error") d = None ->
  assoc (lit "keywordList") d = Some v ->
  not_iterable v = true ->
  format_keywords (VDict d) keyword top_n = Raise TypeError.
Proof.
  intros He Hk Hv. unfold format_keywords. cbn [py_in py_getitem].
  rewrite He, Hk. cbn [bind negb].
  destruct v; try discriminate Hv; reflexivity.
Qed.

(** X7.  An empty [keywordList], be it a list, an object or a string, gives
    a total of 0 and no entry, for every bound the slice accepts. *)
Theorem empty_list_gives_nothing
        (d : list (pystr * value)) (v keyword top_n : value) :
  assoc (lit "error") d = None ->
  assoc (lit "keywordList") d = Some v ->
  v = VList [] \/ v = VDict [] \/ v = VStr [] ->
  bad_bound top_n = false ->
  format_keywords (VDict d) keyword top_n = Ok (formatted_result keyword 0 []).
Proof.
  intros He Hk Hv Hb. unfold format_keywords. cbn [py_in py_getitem].
  rewrite He, Hk. cbn [bind negb].
  destruct Hv as [-> | [-> | ->]];
    destruct top_n as [|b|z|f|s|items|d']; try discriminate Hb;
    try reflexivity.
  all: try (destruct b; reflexivity).
  all: cbn [py_iter map bind keywords_sorted py_sorted_reverse traverse combine
            sort_desc py_slice_to py_len length];
    unfold slice_to; cbn [length]; destruct (0 <=? z)%Z; rewrite firstn_nil;
    reflexivity.
Qed.

Lemma filter_distinct_perm {A : Type} (f : A -> Z) (k : Z) (l l' : list A) :
  Permutation l l' -> NoDup (map f l) ->
  filter (fun a => f a =? k)%Z l = filter (fun a => f a =? k)%Z l'.
Proof.
  induction 1 as [|x l l' Hp IH|x y l|l l' l'' H1 IH1 H2 IH2]; intros Hn.
  - reflexivity.
  - simpl in *. inversion Hn; subst. rewrite IH by assumption. reflexivity.
  - simpl in *. inversion Hn as [|? ? Hy Hn']; subst.
    destruct (Z.eqb_spec (f x) k), (Z.eqb_spec (f y) k); try reflexivity.
    exfalso. apply Hy. left. congruence.
  - rewrite IH1 by assumption. apply IH2.
    apply (Permutation_NoDup (Permutation_map f H1)), Hn.
Qed.

(** X8.  When no two records have the same sum, the ranking does not depend
    on the order the records arrive in: two lists that are rearrangements of
    each other give the same result. *)
Theorem ranking_ignores_input_order
        (d d' : list (pystr * value)) (kws kws' : list value) (keyword : value) (n : Z) :
  assoc (lit "error") d = None ->
  assoc (lit "keywordList") d = Some (VList kws) ->
  assoc (lit "error") d' = None ->
  assoc (lit "keywordList") d' = Some (VList kws') ->
  forallb record_ok kws = true ->
  Permutation kws kws' ->
  NoDup (map normalized_sum kws) ->
  format_keywords (VDict d) keyword (VInt n)
  = format_keywords (VDict d') keyword (VInt n).
Proof.
  intros He Hk He' Hk' Hr Hp Hn.
  assert (Hr' : forallb record_ok kws' = true).
  { apply forallb_forall. intros r Hin. rewrite forallb_forall in Hr.
    apply Hr. apply (Permutation_in r (Permutation_sym Hp)), Hin. }
  rewrite (format_keywords_run d kws keyword n He Hk Hr).
  rewrite (format_keywords_run d' kws' keyword n He' Hk' Hr').
  rewrite (Permutation_length Hp).
  assert (E : ranked_list kws = ranked_list kws').
  { rewrite (ranked_list_run kws Hr), (ranked_list_run kws' Hr').
    apply (stable_sort_unique value normalized_sum);
      try apply sorted_descending.
    intros k. rewrite !sorted_stable. apply filter_distinct_perm; assumption. }
  rewrite E. reflexivity.
Qed.

(** *** The signature and the request *)

Lemma utf8_char_cases (c : codepoint) :
  (encodable [c] = true /\ exists bs, utf8_char c = Ok bs)
  \/ (encodable [c] = false /\ utf8_char c = Raise UnicodeEncodeError).
Proof.
  unfold utf8_char, encodable. cbn [forallb].
  destruct (N.ltb_spec c 0x80), (N.ltb_spec c 0x800), (N.ltb_spec c 0x10000),
    (N.ltb_spec c 0x110000), (N.leb_spec 0xD800 c), (N.ltb_spec c 0xE000);
    try lia; cbn;
    first [ left; split; [reflexivity | eexists; reflexivity]
          | right; split; reflexivity ].
Qed.

Lemma utf8_encode_raise (s : pystr) :
  encodable s = false -> utf8_encode s = Raise UnicodeEncodeError.
Proof.
  induction s as [|c r IH]; intros H; [discriminate H|].
  change (c :: r) with ([c] ++ r) in H. rewrite encodable_app in H.
  cbn [utf8_encode].
  destruct (utf8_char_cases c) as [[Hc [bs ->]] | [_ ->]]; [|reflexivity].
  rewrite Hc in H. cbn [andb] in H. rewrite (IH H). reflexivity.
Qed.

(** X9.  [generate_signature] returns for all arguments whose text, and the
    secret, have a UTF-8 encoding, whatever their types: the base64 text of
    the HMAC of [str(timestamp).str(method).str(path)].  When the secret or
    one of the texts holds a surrogate it raises [UnicodeEncodeError]. *)
Theorem signature_or_encode_error (timestamp method path : value) :
  let message :=
    py_str timestamp ++ lit "." ++ py_str method ++ lit "." ++ py_str path in
  generate_signature timestamp method path
  = if encodable SECRET_KEY && encodable message
    then Ok (b64encode (hmac_sha256 (utf8_bytes SECRET_KEY) (utf8_bytes message)))
    else Raise UnicodeEncodeError.
Proof.
  intros message. unfold generate_signature. fold message.
  destruct (encodable SECRET_KEY) eqn:Hk.
  - rewrite (utf8_encode_total SECRET_KEY Hk). cbn [bind andb].
    destruct (encodable message) eqn:Hm.
    + rewrite (utf8_encode_total message Hm). cbn [bind].
      rewrite hmac_object_digest. apply utf8_decode_ascii.
      apply (b64encode_digest _ (sha256_length _)).
    + rewrite (utf8_encode_raise message Hm). reflexivity.
  - rewrite (utf8_encode_raise SECRET_KEY Hk). reflexivity.
Qed.

Lemma generate_signature_message (t m p t' m' p' : value) :
  py_str t ++ lit "." ++ py_str m ++ lit "." ++ py_str p
  = py_str t' ++ lit "." ++ py_str m' ++ lit "." ++ py_str p' ->
  generate_signature t m p = generate_signature t' m' p'.
Proof. intros H. unfold generate_signature. rewrite H. reflexivity. Qed.

(** X10.  The three parts are joined by dots and nothing marks where one
    ends: a dot moved from the end of the method to the head of the path
    leaves the signature as it was. *)
Theorem signature_blind_to_dot_shift (timestamp : value) (method path : pystr) :
  generate_signature timestamp (VStr (method ++ [0x2E])) (VStr path)
  = generate_signature timestamp (VStr method) (VStr (0x2E :: path)).
Proof.
  apply generate_signature_message. cbn [py_str].
  change (lit ".") with [0x2E]. f_equal. f_equal.
  rewrite <- app_assoc. reflexivity.
Qed.

Lemma get_related_keywords_run (keyword : value) :
  encodable SECRET_KEY = true ->
  get_related_keywords keyword
  = (resp <- upstream keyword ;;
     if (status_code resp =? 200)%Z then json resp else Ok (upstream_error resp)).
Proof.
  intros Hk. unfold get_related_keywords.
  rewrite (generate_signature_run (VStr (int_str time_ms)) (lit "GET")
             (lit "/keywordstool") Hk (encodable_int_str time_ms)
             eq_refl eq_refl).
  cbn [bind]. reflexivity.
Qed.

(** X11.  The request that goes out is one GET of [/keywordstool] under the
    base URL, with the keyword as [hintKeywords] and [showDetail] 1, and it is
    signed for the very timestamp it carries: [X-Signature] is the base64
    HMAC-SHA256 of ["<X-Timestamp>.GET./keywordstool"] under the secret.  An
    answer of status 200 is returned as its body parses, an answer of another
    status as the object of the error and the raw body. *)
Theorem fetch_sends_signed_request (keyword : value) :
  encodable SECRET_KEY = true ->
  get_related_keywords keyword
  = (resp <- requests_get
               (lit "https://api.naver.com/keywordstool")
               (VDict [ (lit "X-API-KEY", VStr API_KEY);
                        (lit "X-CUSTOMER", VStr CUSTOMER_ID);
                        (lit "X-Timestamp", VStr (int_str time_ms));
                        (lit "X-Signature",
                         VStr (b64encode
                                 (hmac_sha256 (utf8_bytes SECRET_KEY)
                                    (utf8_bytes (int_str time_ms
                                                 ++ lit ".GET./keywordstool"))))) ])
               (VDict [ (lit "hintKeywords", keyword);
                        (lit "showDetail", VStr (lit "1")) ]) ;;
     if (status_code resp =? 200)%Z then json resp
     else Ok (VDict [ (lit "error",
                       VStr (lit "API 오류: " ++ int_str (status_code resp)));
                      (lit "detail", VStr (text resp)) ])).
Proof.
  intros Hk. unfold get_related_keywords.
  rewrite (generate_signature_run (VStr (int_str time_ms)) (lit "GET")
             (lit "/keywordstool") Hk (encodable_int_str time_ms)
             eq_refl eq_refl).
  cbn [bind]. reflexivity.
Qed.

(** X12.  With a secret that has no UTF-8 encoding nothing is fetched:
    [get_related_keywords] raises [UnicodeEncodeError] whatever the network
    would answer. *)
Theorem fetch_needs_encodable_secret (keyword : value) :
  encodable SECRET_KEY = false ->
  get_related_keywords keyword = Raise UnicodeEncodeError.
Proof.
  intros Hk. unfold get_related_keywords, generate_signature.
  rewrite (utf8_encode_raise SECRET_KEY Hk). reflexivity.
Qed.

(** *** [api_keywords] *)

(** X13.  When the API answers with another status than 200, the REST route
    returns the object of the error, with the status in its message and the
    raw body as detail, for every bound. *)
Theorem api_reports_upstream_status (keyword : pystr) (top_n : Z) (resp : response) :
  encodable SECRET_KEY = true ->
  upstream (VStr keyword) = Ok resp ->
  status_code resp <> 200%Z ->
  api_keywords keyword top_n
  = Ok (VDict [ (lit "error", VStr (lit "API 오류: " ++ int_str (status_code resp)));
                (lit "detail", VStr (text resp)) ]).
Proof.
  intros Hk Hu Hs. unfold api_keywords.
  rewrite (get_related_keywords_run (VStr keyword) Hk), Hu. cbn [bind].
  apply Z.eqb_neq in Hs. rewrite Hs. cbn [bind].
  apply format_keywords_error_key. reflexivity.
Qed.


(** *** The dispatcher, branch by branch *)

Lemma py_eq_str_true (v : value) (s : pystr) : py_eq_str v s = true -> v = VStr s.
Proof.
  destruct v; try discriminate. simpl. intros H.
  apply str_eqb_eq in H. subst. reflexivity.
Qed.

Lemma py_eq_str_false (v : value) (s : pystr) : py_eq_str v s = false -> v <> VStr s.
Proof.
  intros H ->. rewrite py_eq_str_same in H. discriminate H.
Qed.

(** [mcp_post] on a call of the keyword tool. *)
Lemma mcp_post_call_run (d p a : list (pystr * value)) :
  tool_call d p a ->
  mcp_post (VDict d)
  = let request_id := field_or d (lit "id") VNone in
    let keyword := field_or a (lit "keyword") (VStr (lit "")) in
    let top_n := field_or a (lit "top_n") (VInt 15) in
    if negb (py_truthy keyword) then
      Ok (rpc_result request_id (text_content (lit "키워드를 입력해주세요.")))
    else
      raw_data <- get_related_keywords keyword ;;
      formatted <- format_keywords raw_data keyword top_n ;;
      failed <- py_in (lit "error") formatted ;;
      result_text <-
        (if failed
         then e <- py_getitem formatted (lit "error") ;; Ok (lit "오류: " ++ py_str e)
         else render_table formatted) ;;
      Ok (rpc_result request_id (text_content result_text)).
Proof.
  intros [Hm [Hp [Hn Ha]]]. unfold mcp_post. cbn [py_get bind].
  rewrite Hm, Hp. cbn [py_get bind].
  change (py_eq_str (VStr (lit "tools/call")) (lit "initialize")) with false.
  change (py_eq_str (VStr (lit "tools/call")) (lit "tools/list")) with false.
  change (py_eq_str (VStr (lit "tools/call")) (lit "tools/call")) with true.
  cbv iota. rewrite Hn, Ha. cbn [py_get bind].
  change (py_eq_str (VStr (lit "get_naver_keywords")) (lit "get_naver_keywords"))
    with true.
  cbv iota. reflexivity.
Qed.




Lemma mcp_post_shape (d : list (pystr * value)) (r : value) :
  mcp_post (VDict d) = Ok r ->
  (exists payload, r = rpc_result (field_or d (lit "id") VNone) payload)
  \/ (r = method_not_found (field_or d (lit "id") VNone)
      /\ let method := field_or d (lit "method") (VStr (lit "")) in
         let params := field_or d (lit "params") (VDict []) in
         (method <> VStr (lit "initialize")
          /\ method <> VStr (lit "tools/list")
          /\ method <> VStr (lit "tools/call"))
         \/ (method = VStr (lit "tools/call")
             /\ exists p, params = VDict p
                          /\ field_or p (lit "name") (VStr (lit ""))
                             <> VStr (lit "get_naver_keywords"))).
Proof.
  unfold mcp_post. cbn [py_get bind].
  set (method := field_or d (lit "method") (VStr (lit ""))).
  set (params := field_or d (lit "params") (VDict [])).
  set (request_id := field_or d (lit "id") VNone).
  destruct (py_eq_str method (lit "initialize")) eqn:E1.
  { intros H. injection H as <-. left. eexists. reflexivity. }
  destruct (py_eq_str method (lit "tools/list")) eqn:E2.
  { intros H. injection H as <-. left. eexists. reflexivity. }
  destruct (py_eq_str method (lit "tools/call")) eqn:E3.
  - destruct params as [| | | | | |p] eqn:Ep; cbn [py_get bind];
      try (intros H; discriminate H).
    destruct (py_eq_str (field_or p (lit "name") (VStr (lit "")))
                        (lit "get_naver_keywords")) eqn:E4.
    + destruct (field_or p (lit "arguments") (VDict [])) as [| | | | | |a];
        cbn [py_get bind]; try (intros H; discriminate H).
      destruct (negb (py_truthy (field_or a (lit "keyword") (VStr (lit ""))))).
      { intros H. injection H as <-. left. eexists. reflexivity. }
      destruct (get_related_keywords _) as [raw|]; cbn [bind];
        [|intros H; discriminate H].
      destruct (format_keywords _ _ _) as [formatted|]; cbn [bind];
        [|intros H; discriminate H].
      destruct (py_in _ formatted) as [failed|]; cbn [bind];
        [|intros H; discriminate H].
      destruct failed.
      * destruct (py_getitem formatted _) as [e|]; cbn [bind];
          [|intros H; discriminate H].
        intros H. injection H as <-. left. eexists. reflexivity.
      * destruct (render_table formatted) as [t|]; cbn [bind];
          [|intros H; discriminate H].
        intros H. injection H as <-. left. eexists. reflexivity.
    + intros H. injection H as <-. right. split; [reflexivity|].
      right. split; [apply py_eq_str_true, E3|].
      exists p. split; [reflexivity|]. apply py_eq_str_false, E4.
  - intros H. injection H as <-. right. split; [reflexivity|].
    left. repeat split; apply py_eq_str_false; assumption.
Qed.

(** X15.  Every response of the dispatcher to a request object is an object
    of exactly three fields: [jsonrpc] with ["2.0"], [id] with the id of the
    request ([None] when it has none), and either [result] or [error]. *)
Theorem response_envelope (d : list (pystr * value)) (r : value) :
  mcp_post (VDict d) = Ok r ->
  exists key payload,
    r = VDict [ (lit "jsonrpc", VStr (lit "2.0"));
                (lit "id", field_or d (lit "id") VNone);
                (key, payload) ]
    /\ (key = lit "result" \/ key = lit "error").
Proof.
  intros H. destruct (mcp_post_shape d r H) as [[payload ->] | [-> _]].
  - exists (lit "result"), payload. split; [reflexivity|left; reflexivity].
  - eexists (lit "error"), _. split; [reflexivity|right; reflexivity].
Qed.

(** X16.  The dispatcher answers with an [error] object only for a method it
    does not know and for a call of a tool of another name: whenever the
    response holds an [error] field, it is the error -32601 and the request
    was one of these two. *)
Theorem error_only_when_unhandled (d : list (pystr * value)) (r : value) :
  mcp_post (VDict d) = Ok r ->
  py_in (lit "error") r = Ok true ->
  r = VDict [ (lit "jsonrpc", VStr (lit "2.0"));
              (lit "id", field_or d (lit "id") VNone);
              (lit "error",
               VDict [ (lit "code", VInt (-32601));
                       (lit "message", VStr (lit "Method not found")) ]) ]
  /\ let method := field_or d (lit "method") (VStr (lit "")) in
     let params := field_or d (lit "params") (VDict []) in
     (method <> VStr (lit "initialize")
      /\ method <> VStr (lit "tools/list")
      /\ method <> VStr (lit "tools/call"))
     \/ (method = VStr (lit "tools/call")
         /\ exists p, params = VDict p
                      /\ field_or p (lit "name") (VStr (lit ""))
                         <> VStr (lit "get_naver_keywords")).
Proof.
  intros H He. destruct (mcp_post_shape d r H) as [[payload ->] | [-> Hm]].
  - cbv in He. discriminate He.
  - split; [reflexivity|exact Hm].
Qed.


(** X18.  Parameters given by position, or any [params] that is no object,
    make a [tools/call] raise [AttributeError]; so do arguments that are no
    object in a call of the keyword tool. *)
Theorem call_needs_objects (d : list (pystr * value)) :
  field_or d (lit "method") (VStr (lit "")) = VStr (lit "tools/call") ->
  is_dict (field_or d (lit "params") (VDict [])) = false
  \/ (exists p,
        field_or d (lit "params") (VDict []) = VDict p
        /\ field_or p (lit "name") (VStr (lit "")) = VStr (lit "get_naver_keywords")
        /\ is_dict (field_or p (lit "arguments") (VDict [])) = false) ->
  mcp_post (VDict d) = Raise AttributeError.
Proof.
  intros Hm H. unfold mcp_post. cbn [py_get bind]. rewrite Hm.
  change (py_eq_str (VStr (lit "tools/call")) (lit "initialize")) with false.
  change (py_eq_str (VStr (lit "tools/call")) (lit "tools/list")) with false.
  change (py_eq_str (VStr (lit "tools/call")) (lit "tools/call")) with true.
  cbv iota. destruct H as [H | [p [Hp [Hn Ha]]]].
  - destruct (field_or d (lit "params") (VDict [])); try discriminate H;
      reflexivity.
  - rewrite Hp. cbn [py_get bind]. rewrite Hn.
    change (py_eq_str (VStr (lit "get_naver_keywords")) (lit "get_naver_keywords"))
      with true.
    cbv iota.
    destruct (field_or p (lit "arguments") (VDict [])); try discriminate Ha;
      reflexivity.
Qed.

(** X19.  A failure of the network is not caught: the exception that
    [requests.get] raises leaves the dispatcher, and the REST route, as it
    is. *)
Theorem network_failure_propagates
        (d p a : list (pystr * value)) (keyword : pystr) (top_n : Z) (e : exn) :
  encodable SECRET_KEY = true ->
  tool_call d p a ->
  py_truthy (field_or a (lit "keyword") (VStr (lit ""))) = true ->
  upstream (field_or a (lit "keyword") (VStr (lit ""))) = Raise e ->
  upstream (VStr keyword) = Raise e ->
  mcp_post (VDict d) = Raise e /\ api_keywords keyword top_n = Raise e.
Proof.
  intros Hk Hc Ht Hu Hu'. split.
  - rewrite (mcp_post_call_run d p a Hc). cbv zeta. rewrite Ht. cbn [negb].
    rewrite (get_related_keywords_run _ Hk), Hu. reflexivity.
  - unfold api_keywords.
    rewrite (get_related_keywords_run _ Hk), Hu'. reflexivity.
Qed.



(** X22.  What [tools/list] announces can be called: a [tools/call] that
    names a tool of the list [TOOLS] is never answered with "Method not
    found". *)
Theorem listed_tools_are_callable
        (tool : value) (name : pystr) (d p : list (pystr * value)) :
  In tool (match TOOLS with VList tools => tools | _ => [] end) ->
  py_get tool (lit "name") VNone = Ok (VStr name) ->
  field_or d (lit "method") (VStr (lit "")) = VStr (lit "tools/call") ->
  field_or d (lit "params") (VDict []) = VDict p ->
  field_or p (lit "name") (VStr (lit "")) = VStr name ->
  mcp_post (VDict d) <> Ok (method_not_found (field_or d (lit "id") VNone)).
Proof.
  intros Hin Hname Hm Hp Hn H.
  unfold TOOLS in Hin. destruct Hin as [<- | []].
  cbv in Hname. injection Hname as <-.
  destruct (mcp_post_shape d _ H) as [[payload E] | [_ Hu]].
  - discriminate E.
  - cbv zeta in Hu. rewrite Hm, Hp in Hu.
    destruct Hu as [[_ [_ Hc]] | [_ [p' [Ep Hne]]]].
    + apply Hc. reflexivity.
    + injection Ep as <-. apply Hne. rewrite Hn. reflexivity.
Qed.

(** *** The event stream *)

Lemma keepalive_loop_turns (k : nat) (polls : list bool) :
  keepalive_loop true (repeat false k ++ polls)
  = (keepalive_turns k ++ fst (keepalive_loop true polls),
     snd (keepalive_loop true polls)).
Proof.
  induction k as [|k IH]; cbn [repeat app keepalive_loop].
  - destruct (keepalive_loop true polls); reflexivity.
  - rewrite IH. reflexivity.
Qed.

Lemma chunks_of_turns (k : nat) :
  chunks_of (keepalive_turns k) = repeat keepalive_chunk k.
Proof.
  induction k as [|k IH]; [reflexivity|].
  change (keepalive_turns (S k))
    with ([Yield keepalive_chunk; Sleep 30] ++ keepalive_turns k).
  unfold chunks_of. rewrite flat_map_app.
  fold (chunks_of (keepalive_turns k)). rewrite IH. reflexivity.
Qed.

(** X23.  When the module runs as a script, the stream hands out the
    [initialized] message first, then one keep-alive for every poll that
    finds the client connected, each followed by a sleep of 30 seconds; it
    is over at the first poll that finds the client gone, and nothing is
    handed out after that, whatever the later polls would say. *)
Theorem stream_keeps_alive_until_gone (k : nat) (later : list bool) :
  event_generator true (repeat false k ++ true :: later)
  = (Yield initialized_chunk :: keepalive_turns k, ClientGone)
  /\ event_generator true (repeat false k)
     = (Yield initialized_chunk :: keepalive_turns k, StillOpen)
  /\ chunks_of (Yield initialized_chunk :: keepalive_turns k)
     = initialized_chunk :: repeat keepalive_chunk k.
Proof.
  split; [|split].
  - unfold event_generator. rewrite keepalive_loop_turns.
    cbn [keepalive_loop fst snd]. rewrite app_nil_r. reflexivity.
  - unfold event_generator. rewrite <- (app_nil_r (repeat false k)).
    rewrite keepalive_loop_turns. cbn [keepalive_loop fst snd].
    rewrite app_nil_r. reflexivity.
  - change (Yield initialized_chunk :: keepalive_turns k)
      with ([Yield initialized_chunk] ++ keepalive_turns k).
    unfold chunks_of. rewrite flat_map_app.
    fold (chunks_of (keepalive_turns k)). rewrite chunks_of_turns. reflexivity.
Qed.

(** X24.  When the module is imported, so that [asyncio] is not bound, the
    stream does not outlive its first poll: it never sleeps, it hands out one
    keep-alive at most, and after a poll it is either over or broken by the
    [NameError] of line 149. *)
Theorem stream_breaks_without_asyncio (polls : list bool) :
  let (events, ending) := event_generator false polls in
  (forall seconds, ~ In (Sleep seconds) events)
  /\ (length (chunks_of events) <= 2)%nat
  /\ (ending = StillOpen -> polls = [])
  /\ (ending = NameErrorRaised <-> exists rest, polls = false :: rest).
Proof.
  destruct polls as [|[|] rest]; cbn.
  - repeat split; try lia; try (intros H; discriminate H).
    + intros seconds [H|[]]. discriminate H.
    + intros [r H]. discriminate H.
  - repeat split; try lia; try (intros H; discriminate H).
    + intros seconds [H|[]]. discriminate H.
    + intros [r H]. discriminate H.
  - repeat split; try lia; try (intros H; discriminate H).
    + intros seconds [H|[H|[]]]; discriminate H.
    + intros _. exists rest. reflexivity.
Qed.
End Server.

(** ** The properties on the sample inputs *)

(** The four sample records in the order [format_keywords] ranks them: the
    two of sum 150 before the two of sum 10, each pair in its input order. *)
Example sample_ranking :
  ranked_list quote_plain sample_keywords
  = [ sample_record "grant" (VStr (lit "120")) (VInt 30);
      sample_record "credit" (VInt 150) (VStr (lit ""));
      sample_record "loan" (VInt 10) (VStr (lit "< 10"));
      sample_record "fund" (VStr (lit "n/a")) (VStr (lit "10")) ].
Proof. vm_compute. reflexivity. Qed.



(** The superscript two passes [isdigit] and is refused by [int]: on a record
    with such a count [format_keywords] raises. *)
Example superscript_count_raises :
  isdigit [0xB2] = true
  /\ int_of_str [0xB2] = Raise ValueError
  /\ record_ok superscript_record = false
  /\ format_keywords quote_plain
       (VDict [ (lit "keywordList", VList [superscript_record]) ])
       (VStr (lit "loan")) (VInt 15)
     = Raise ValueError.
Proof. repeat split; vm_compute; reflexivity. Qed.




(** The bound 3 on ten records: three entries, those of the counts 10, 9 and
    8, and a total of 10. *)
Example three_of_ten :
  format_keywords quote_plain ten_data (VStr (lit "k")) (VInt 3)
  = Ok (formatted_result (VStr (lit "k")) 10
          (map (entry_with normalized_count)
               [ sample_record "k" (VInt 10) (VStr (lit "< 10"));
                 sample_record "k" (VInt 9) (VStr (lit "< 10"));
                 sample_record "k" (VInt 8) (VStr (lit "< 10")) ])).
Proof. vm_compute. reflexivity. Qed.


Lemma format_passes_error_witness :
  format_keywords quote_plain (VDict [ (lit "error", VStr (lit "x")) ])
                  (VStr (lit "loan")) (VInt 3)
  = Ok (VDict [ (lit "error", VStr (lit "x")) ]).
Proof.
  apply (format_passes_error quote_plain [ (lit "error", VStr (lit "x")) ]
           (VStr (lit "loan")) (VInt 3) (VStr (lit "x"))).
  reflexivity.
Defined.

Lemma format_without_list_witness :
  format_keywords quote_plain (VDict []) (VStr (lit "loan")) (VInt 3)
  = Ok (VDict [ (lit "error", VStr (lit "키워드 데이터 없음")) ]).
Proof.
  apply (format_without_list quote_plain [] (VStr (lit "loan")) (VInt 3));
    reflexivity.
Defined.


(** The signature of a sample request, as the interpreter computes it. *)
Example sample_signature :
  generate_signature quote_plain (lit "secret") (VStr (lit "1700000000000"))
                     (VStr (lit "GET")) (VStr (lit "/keywordstool"))
  = Ok (lit "A6Gzu+sW9C2ovLsH+T+rFrie81KwHy1xrodUFQERKf4=").
Proof. vm_compute. reflexivity. Qed.

Lemma signature_is_base64_hmac_witness :
  let message := int_str 1700000000000 ++ lit "." ++ lit "GET" ++ lit "."
                 ++ lit "/keywordstool" in
  let expected :=
    b64encode (hmac_sha256 (utf8_bytes (lit "secret")) (utf8_bytes message)) in
  generate_signature quote_plain (lit "secret") (VInt 1700000000000)
                     (VStr (lit "GET")) (VStr (lit "/keywordstool")) = Ok expected
  /\ generate_signature quote_plain (lit "secret") (VStr (int_str 1700000000000))
                        (VStr (lit "GET")) (VStr (lit "/keywordstool")) = Ok expected
  /\ length expected = 44%nat
  /\ last expected 0%N = 0x3D%N
  /\ forallb is_b64_char (removelast expected) = true.
Proof.
  apply (signature_is_base64_hmac quote_plain (lit "secret") 1700000000000
           (lit "GET") (lit "/keywordstool")); reflexivity.
Defined.



(** A call of a tool of another name falls through to the same error, and a
    call with a keyword is answered with the table of the ranking. *)
Example other_tool_not_found :
  mcp_post quote_plain (lit "customer") (lit "key") (lit "secret") 1700000000000
           no_network
           (rpc_request (VStr (lit "r-7")) "tools/call"
              (VDict [ (lit "name", VStr (lit "other_tool")) ]))
  = Ok (VDict [ (lit "jsonrpc", VStr (lit "2.0"));
                (lit "id", VStr (lit "r-7"));
                (lit "error",
                 VDict [ (lit "code", VInt (-32601));
                         (lit "message", VStr (lit "Method not found")) ]) ]).
Proof. vm_compute. reflexivity. Qed.

Example sample_call_renders_table :
  mcp_post quote_plain (lit "customer") (lit "key") (lit "secret") 1700000000000
           sample_network
           (rpc_request (VInt 7) "tools/call"
              (VDict [ (lit "name", VStr (lit "get_naver_keywords"));
                       (lit "arguments",
                        VDict [ (lit "keyword", VStr (lit "loan"));
                                (lit "top_n", VInt 3) ]) ]))
  = Ok (VDict [ (lit "jsonrpc", VStr (lit "2.0"));
                (lit "id", VInt 7);
                (lit "result",
                 VDict [ (lit "content",
                          VList [ VDict [ (lit "type", VStr (lit "text"));
                                          (lit "text",
                                           VStr (join [0x0A%N]
                                             [ lit "🔍 'loan' 연관 키워드 분석 결과";
                                               lit "총 4개 키워드 중 상위 3개";
                                               lit "";
                                               lit "순위 | 키워드 | 월간검색량 | 경쟁강도";
                                               lit "---|---|---|---";
                                               lit "1 | grant | 150 | high";
                                               lit "2 | credit | 150 | high";
                                               lit "3 | loan | 10 | high" ])) ] ]) ]) ]).
Proof. vm_compute. reflexivity. Qed.

(** ** The further properties on the sample inputs *)






Lemma list_not_iterable_raises_witness :
  format_keywords quote_plain (VDict [ (lit "keywordList", VNone) ])
                  (VStr (lit "loan")) (VInt 15)
  = Raise TypeError.
Proof.
  apply (list_not_iterable_raises quote_plain [ (lit "keywordList", VNone) ]
           VNone (VStr (lit "loan")) (VInt 15)); reflexivity.
Defined.

Lemma empty_list_gives_nothing_witness :
  format_keywords quote_plain (VDict [ (lit "keywordList", VList []) ])
                  (VStr (lit "loan")) (VInt 15)
  = Ok (formatted_result (VStr (lit "loan")) 0 []).
Proof.
  apply (empty_list_gives_nothing quote_plain [ (lit "keywordList", VList []) ]
           (VList []) (VStr (lit "loan")) (VInt 15));
    try reflexivity.
  left. reflexivity.
Defined.

Lemma ranking_ignores_input_order_witness :
  format_keywords quote_plain (VDict [ (lit "keywordList", VList two_keywords) ])
                  (VStr (lit "loan")) (VInt 15)
  = format_keywords quote_plain
      (VDict [ (lit "keywordList", VList (rev two_keywords)) ])
      (VStr (lit "loan")) (VInt 15).
Proof.
  apply (ranking_ignores_input_order quote_plain
           [ (lit "keywordList", VList two_keywords) ]
           [ (lit "keywordList", VList (rev two_keywords)) ]
           two_keywords (rev two_keywords) (VStr (lit "loan")) 15);
    try reflexivity.
  - apply perm_swap.
  - change (map (normalized_sum quote_plain) two_keywords) with [10%Z; 150%Z].
    constructor.
    + intros [H|[]]. discriminate H.
    + constructor; [intros [] | constructor].
Defined.

Lemma fetch_sends_signed_request_witness :
  get_related_keywords quote_plain (lit "customer") (lit "key") (lit "secret")
                       1700000000000 sample_network (VStr (lit "loan"))
  = (resp <- sample_network
               (lit "https://api.naver.com/keywordstool")
               (VDict [ (lit "X-API-KEY", VStr (lit "key"));
                        (lit "X-CUSTOMER", VStr (lit "customer"));
                        (lit "X-Timestamp", VStr (int_str 1700000000000));
                        (lit "X-Signature",
                         VStr (b64encode
                                 (hmac_sha256 (utf8_bytes (lit "secret"))
                                    (utf8_bytes (int_str 1700000000000
                                                 ++ lit ".GET./keywordstool"))))) ])
               (VDict [ (lit "hintKeywords", VStr (lit "loan"));
                        (lit "showDetail", VStr (lit "1")) ]) ;;
     if (status_code resp =? 200)%Z then json resp
     else Ok (VDict [ (lit "error",
                       VStr (lit "API 오류: " ++ int_str (status_code resp)));
                      (lit "detail", VStr (text resp)) ])).
Proof.
  apply (fetch_sends_signed_request quote_plain (lit "customer") (lit "key")
           (lit "secret") 1700000000000 sample_network (VStr (lit "loan"))).
  reflexivity.
Defined.

Lemma fetch_needs_encodable_secret_witness :
  get_related_keywords quote_plain (lit "customer") (lit "key") [0xDC80%N]
                       1700000000000 sample_network (VStr (lit "loan"))
  = Raise UnicodeEncodeError.
Proof.
  apply (fetch_needs_encodable_secret quote_plain (lit "customer") (lit "key")
           [0xDC80%N] 1700000000000 sample_network (VStr (lit "loan"))).
  reflexivity.
Defined.

Lemma api_reports_upstream_status_witness :
  api_keywords quote_plain (lit "customer") (lit "key") (lit "secret")
               1700000000000 denied_network (lit "loan") 15
  = Ok (VDict [ (lit "error", VStr (lit "API 오류: " ++ int_str 403));
                (lit "detail", VStr (lit "denied")) ]).
Proof.
  apply (api_reports_upstream_status quote_plain (lit "customer") (lit "key")
           (lit "secret") 1700000000000 denied_network (lit "loan") 15
           (Response 403 (lit "denied") (Raise JSONDecodeError)));
    [reflexivity | reflexivity | discriminate].
Defined.


Lemma response_envelope_witness :
  exists key payload,
    rpc_result (VInt 1) (VDict [ (lit "tools", TOOLS) ])
    = VDict [ (lit "jsonrpc", VStr (lit "2.0"));
              (lit "id", field_or (request_fields (VInt 1) "tools/list" (VDict []))
                                  (lit "id") VNone);
              (key, payload) ]
    /\ (key = lit "result" \/ key = lit "error").
Proof.
  apply (response_envelope quote_plain (lit "customer") (lit "key") (lit "secret")
           1700000000000 no_network
           (request_fields (VInt 1) "tools/list" (VDict []))
           (rpc_result (VInt 1) (VDict [ (lit "tools", TOOLS) ]))).
  reflexivity.
Defined.

Lemma error_only_when_unhandled_witness :
  method_not_found (VInt 1)
  = VDict [ (lit "jsonrpc", VStr (lit "2.0"));
            (lit "id", field_or (request_fields (VInt 1) "resources/list" (VDict []))
                                (lit "id") VNone);
            (lit "error",
             VDict [ (lit "code", VInt (-32601));
                     (lit "message", VStr (lit "Method not found")) ]) ]
  /\ let method := field_or (request_fields (VInt 1) "resources/list" (VDict []))
                            (lit "method") (VStr (lit "")) in
     let params := field_or (request_fields (VInt 1) "resources/list" (VDict []))
                            (lit "params") (VDict []) in
     (method <> VStr (lit "initialize")
      /\ method <> VStr (lit "tools/list")
      /\ method <> VStr (lit "tools/call"))
     \/ (method = VStr (lit "tools/call")
         /\ exists p, params = VDict p
                      /\ field_or p (lit "name") (VStr (lit ""))
                         <> VStr (lit "get_naver_keywords")).
Proof.
  apply (error_only_when_unhandled quote_plain (lit "customer") (lit "key")
           (lit "secret") 1700000000000 no_network
           (request_fields (VInt 1) "resources/list" (VDict []))
           (method_not_found (VInt 1))); reflexivity.
Defined.


Lemma call_needs_objects_witness :
  mcp_post quote_plain (lit "customer") (lit "key") (lit "secret") 1700000000000
           no_network
           (VDict (request_fields (VInt 1) "tools/call" (VList [VStr (lit "loan")])))
  = Raise AttributeError.
Proof.
  apply (call_needs_objects quote_plain (lit "customer") (lit "key")
           (lit "secret") 1700000000000 no_network
           (request_fields (VInt 1) "tools/call" (VList [VStr (lit "loan")]))).
  - reflexivity.
  - left. reflexivity.
Defined.

Lemma network_failure_propagates_witness :
  mcp_post quote_plain (lit "customer") (lit "key") (lit "secret") 1700000000000
           no_network (VDict (keyword_call [ (lit "keyword", VStr (lit "loan")) ]))
  = Raise RequestException
  /\ api_keywords quote_plain (lit "customer") (lit "key") (lit "secret")
                  1700000000000 no_network (lit "loan") 15
     = Raise RequestException.
Proof.
  apply (network_failure_propagates quote_plain (lit "customer") (lit "key")
           (lit "secret") 1700000000000 no_network
           (keyword_call [ (lit "keyword", VStr (lit "loan")) ])
           (keyword_call_params [ (lit "keyword", VStr (lit "loan")) ])
           [ (lit "keyword", VStr (lit "loan")) ]
           (lit "loan") 15 RequestException); try reflexivity.
  repeat split; reflexivity.
Defined.



Lemma listed_tools_are_callable_witness :
  mcp_post quote_plain (lit "customer") (lit "key") (lit "secret") 1700000000000
           no_network (VDict (keyword_call []))
  <> Ok (method_not_found (field_or (keyword_call []) (lit "id") VNone)).
Proof.
  apply (listed_tools_are_callable quote_plain (lit "customer") (lit "key")
           (lit "secret") 1700000000000 no_network
           (hd VNone (match TOOLS with VList tools => tools | _ => [] end))
           (lit "get_naver_keywords")
           (keyword_call []) (keyword_call_params [])).
  - left. reflexivity.
  - reflexivity.
  - reflexivity.
  - reflexivity.
  - reflexivity.
Defined.
